(** * PDF task-order extractor: a shallow embedding of [pdf_extractor.py]

    The development follows the program top-down:

    - characters, character classes and the backtracking matcher that stands
      for [re.search(pattern, text, re.IGNORECASE)];
    - the Python builtins the extractor calls ([str.strip], [str.replace],
      [float], [int], [datetime.strptime], [strftime]);
    - [extract_contractor_name] and [extract_pdf_data], with the log they
      write;
    - the table that [update_excel] reads, extends, sorts and writes back.

    Scope of the model.  Text is a string of 8-bit characters and the
    character classes are the ASCII ones.  [float] returns the decimal value
    it reads, as a rational, before rounding to binary.  The store is the
    table that [to_excel] wrote; what [read_excel] makes of it when the next
    document is merged, how a date string is read and how a non-string cell
    prints are left to pandas and are parameters of the merger. *)

From Stdlib Require Import Bool List String Ascii NArith ZArith QArith Lia
  Permutation Sorted DecimalString.
Import ListNotations.
Close Scope Q_scope.
Open Scope Z_scope.
Open Scope string_scope.

Set Implicit Arguments.

(* ------------------------------------------------------------------ *)
(** * Characters *)

Module Chars.

Definition code (c : ascii) : N := N_of_ascii c.

Definition between (lo hi : N) (c : ascii) : bool :=
  ((lo <=? code c) && (code c <=? hi))%N.

Definition is_digit : ascii -> bool := between 48 57.
Definition is_upper : ascii -> bool := between 65 90.
Definition is_lower : ascii -> bool := between 97 122.

(** [str.isspace] on the ASCII range: tab, LF, VT, FF, CR, the four
    separators FS, GS, RS, US and the blank. *)
Definition is_space (c : ascii) : bool :=
  between 9 13 c || between 28 31 c || (code c =? 32)%N.

(** [\w]: letters, digits and the underscore. *)
Definition is_word (c : ascii) : bool :=
  is_digit c || is_upper c || is_lower c || (code c =? 95)%N.

Definition lower (c : ascii) : ascii :=
  if is_upper c then ascii_of_N (code c + 32) else c.

Definition upper (c : ascii) : ascii :=
  if is_lower c then ascii_of_N (code c - 32) else c.

Definition digit_val (c : ascii) : Z := Z.of_N (code c) - 48.

Definition digit_char (d : Z) : ascii := ascii_of_N (Z.to_N (48 + d)).

End Chars.
Import Chars.

(* ------------------------------------------------------------------ *)
(** * Regular expressions, as [re] runs them *)

Module Re.

(** What one position of a pattern accepts.  Every pattern of the program is
    compiled with [re.IGNORECASE], so a literal accepts both cases. *)
Inductive cclass : Type :=
| CLit (c : ascii)
| CRange (lo hi : ascii)
| CDigit
| CSpace
| CWord
| CUnion (a b : cclass).

Fixpoint in_class (cl : cclass) (x : ascii) : bool :=
  match cl with
  | CLit c => N.eqb (code (lower x)) (code (lower c))
  | CRange lo hi =>
      between (code lo) (code hi) x
      || between (code lo) (code hi) (lower x)
      || between (code lo) (code hi) (upper x)
  | CDigit => is_digit x
  | CSpace => is_space x
  | CWord => is_word x
  | CUnion a b => in_class a x || in_class b x
  end.

(** The fragment of the pattern language the program uses.  Repetition is
    only ever applied to a single character class. *)
Inductive regex : Type :=
| Eps
| Chr (cl : cclass)
| Seq (r1 r2 : regex)
| Alt (r1 r2 : regex)
| Opt (r : regex)
| Star (cl : cclass).

Definition Plus (cl : cclass) : regex := Seq (Chr cl) (Star cl).

Fixpoint lit (s : string) : regex :=
  match s with
  | EmptyString => Eps
  | String c EmptyString => Chr (CLit c)
  | String c s' => Seq (Chr (CLit c)) (lit s')
  end.

Fixpoint seqs (rs : list regex) : regex :=
  match rs with
  | [] => Eps
  | [r] => r
  | r :: rs' => Seq r (seqs rs')
  end.

Section Matcher.
Variable A : Type.

(** Greedy repetition of a class: take a character if possible and try the
    rest first; fall back to stopping here. *)
Fixpoint star_k (cl : cclass) (s : string) (k : string -> option A)
  : option A :=
  match s with
  | String x s' =>
      if in_class cl x then
        match star_k cl s' k with
        | Some a => Some a
        | None => k s
        end
      else k s
  | EmptyString => k s
  end.

(** Backtracking matcher in continuation-passing style: alternatives are
    tried left to right and an optional part is tried present first. *)
Fixpoint matchk (r : regex) (s : string) (k : string -> option A)
  : option A :=
  match r with
  | Eps => k s
  | Chr cl =>
      match s with
      | String x s' => if in_class cl x then k s' else None
      | EmptyString => None
      end
  | Seq r1 r2 => matchk r1 s (fun s' => matchk r2 s' k)
  | Alt r1 r2 =>
      match matchk r1 s k with
      | Some a => Some a
      | None => matchk r2 s k
      end
  | Opt r1 =>
      match matchk r1 s k with
      | Some a => Some a
      | None => k s
      end
  | Star cl => star_k cl s k
  end.

(** The part of [s] consumed when the rest is [s']. *)
Definition consumed (s s' : string) : string :=
  substring 0 (String.length s - String.length s')%nat s.

(** Match [r] and hand the matched text to the continuation. *)
Definition capture (r : regex) (s : string)
    (k : string -> string -> option A) : option A :=
  matchk r s (fun s' => k (consumed s s') s').

End Matcher.

(** A pattern with its one capturing group: [pre(grp)post]. *)
Record pattern : Type := mkPattern { pre : regex; grp : regex; post : regex }.

(** [re.match]: the pattern anchored at the start of [s]; the result is
    [group(1)]. *)
Definition match_here (p : pattern) (s : string) : option string :=
  matchk (pre p) s (fun s1 =>
    capture (grp p) s1 (fun g s2 =>
      matchk (post p) s2 (fun _ => Some g))).

(** [re.search]: the leftmost position where the pattern matches. *)
Fixpoint search (p : pattern) (s : string) : option string :=
  match match_here p s with
  | Some g => Some g
  | None =>
      match s with
      | EmptyString => None
      | String _ s' => search p s'
      end
  end.

(** The words a regex can consume, without regard to priorities. *)
Inductive lang : regex -> string -> Prop :=
| L_eps : lang Eps ""
| L_chr cl x : in_class cl x = true -> lang (Chr cl) (String x "")
| L_seq r1 r2 w1 w2 : lang r1 w1 -> lang r2 w2 -> lang (Seq r1 r2) (w1 ++ w2)
| L_alt_l r1 r2 w : lang r1 w -> lang (Alt r1 r2) w
| L_alt_r r1 r2 w : lang r2 w -> lang (Alt r1 r2) w
| L_opt_some r w : lang r w -> lang (Opt r) w
| L_opt_none r : lang (Opt r) ""
| L_star_nil cl : lang (Star cl) ""
| L_star_cons cl x w :
    in_class cl x = true -> lang (Star cl) w -> lang (Star cl) (String x w).

End Re.
Import Re.

(* ------------------------------------------------------------------ *)
(** * The Python builtins the extractor calls *)

Module Py.

(** Every character of [s] satisfies [P]. *)
Fixpoint all_chars (P : ascii -> bool) (s : string) : bool :=
  match s with
  | String c s' => P c && all_chars P s'
  | EmptyString => true
  end.

Definition not_space (c : ascii) : bool := negb (is_space c).

(** How many characters of [s] satisfy [P]. *)
Fixpoint count_chars (P : ascii -> bool) (s : string) : nat :=
  match s with
  | String c s' => ((if P c then 1 else 0) + count_chars P s')%nat
  | EmptyString => 0%nat
  end.

Definition is_dot (c : ascii) : bool := (code c =? 46)%N.

(** The last character of [s], [d] when [s] is empty. *)
Fixpoint last_char_or (d : ascii) (s : string) : ascii :=
  match s with
  | String c s' => last_char_or c s'
  | EmptyString => d
  end.

(** [str.lstrip], [str.rstrip], [str.strip]. *)
Fixpoint lstrip (s : string) : string :=
  match s with
  | String c s' => if is_space c then lstrip s' else s
  | EmptyString => EmptyString
  end.

Fixpoint rstrip (s : string) : string :=
  match s with
  | String c s' =>
      match rstrip s' with
      | EmptyString => if is_space c then EmptyString else String c EmptyString
      | t => String c t
      end
  | EmptyString => EmptyString
  end.

Definition strip (s : string) : string := rstrip (lstrip s).

(** [str.lower]. *)
Fixpoint lowercase (s : string) : string :=
  match s with
  | String c s' => String (lower c) (lowercase s')
  | EmptyString => EmptyString
  end.

(** Two continuations of the matcher that agree, through [f], on a text and
    on the same text in lower case. *)
Definition agree (A B : Type) (f : A -> B)
    (k : string -> option A) (k' : string -> option B) : Prop :=
  forall s, k' (lowercase s) = option_map f (k s).

(** [s.replace(',', '')]. *)
Fixpoint remove_commas (s : string) : string :=
  match s with
  | String c s' =>
      if (code c =? 44)%N then remove_commas s' else String c (remove_commas s')
  | EmptyString => EmptyString
  end.

(** [s.split('/')[-1]]: what follows the last slash, the whole string when
    there is none.  [cur] is the piece being read. *)
Fixpoint last_piece (cur s : string) : string :=
  match s with
  | String c s' =>
      if (code c =? 47)%N then last_piece EmptyString s'
      else last_piece (cur ++ String c EmptyString) s'
  | EmptyString => cur
  end.

Definition last_token (s : string) : string := last_piece EmptyString s.

(** [needle in hay]. *)
Definition contains (needle hay : string) : bool :=
  match index 0%nat needle hay with
  | Some _ => true
  | None => false
  end.

(** The longest run of digits at the start of [s], and what follows. *)
Fixpoint span_digits (s : string) : string * string :=
  match s with
  | String c s' =>
      if is_digit c then
        let '(ds, rest) := span_digits s' in (String c ds, rest)
      else (EmptyString, s)
  | EmptyString => (EmptyString, EmptyString)
  end.

Fixpoint digits_value (acc : Z) (s : string) : Z :=
  match s with
  | String c s' => digits_value (10 * acc + digit_val c) s'
  | EmptyString => acc
  end.

Definition take_sign (s : string) : bool * string :=
  match s with
  | String c s' =>
      if (code c =? 45)%N then (true, s')
      else if (code c =? 43)%N then (false, s')
      else (false, s)
  | EmptyString => (false, s)
  end.

Definition apply_sign (neg : bool) (z : Z) : Z := if neg then - z else z.

(** [sys.get_int_max_str_digits()], the default. *)
Definition int_max_str_digits : nat := 4300%nat.

(** [int(s)] for a decimal literal: surrounding blanks, a sign, digits.
    [None] is [ValueError]. *)
Definition py_int (s : string) : option Z :=
  let '(neg, body) := take_sign (strip s) in
  match span_digits body with
  | (EmptyString, _) => None
  | (ds, EmptyString) =>
      if Nat.leb (String.length ds) int_max_str_digits
      then Some (apply_sign neg (digits_value 0 ds))
      else None
  | (_, String _ _) => None
  end.

(** The exponent part of a float literal, [e] or [E], a sign and digits. *)
Definition float_exponent (s : string) : option Z :=
  match s with
  | EmptyString => Some 0
  | String c s' =>
      if (code (lower c) =? 101)%N then
        let '(neg, body) := take_sign s' in
        match span_digits body with
        | (EmptyString, _) => None
        | (ds, EmptyString) => Some (apply_sign neg (digits_value 0 ds))
        | (_, String _ _) => None
        end
      else None
  end.

Definition scale10 (q : Q) (e : Z) : Q :=
  match e with
  | Z0 => q
  | Zpos p => Qmult q (inject_Z (Z.pow 10 (Zpos p)))
  | Zneg p => Qdiv q (inject_Z (Z.pow 10 (Zpos p)))
  end.

(** [float(s)] for a decimal literal: surrounding blanks, a sign, digits
    with an optional fraction (or a bare fraction), an optional exponent.
    The result is the value of the literal. [None] is [ValueError]. *)
Definition py_float (s : string) : option Q :=
  let '(neg, body) := take_sign (strip s) in
  let '(ip, after_int) := span_digits body in
  let '(fp, after_frac) :=
    match after_int with
    | String c s' =>
        if (code c =? 46)%N then span_digits s' else (EmptyString, after_int)
    | EmptyString => (EmptyString, after_int)
    end in
  match ip, fp with
  | EmptyString, EmptyString => None
  | _, _ =>
      match float_exponent after_frac with
      | Some e =>
          let mant := apply_sign neg (digits_value 0 (ip ++ fp)) in
          Some (Qred (scale10 (inject_Z mant)
                        (e - Z.of_nat (String.length fp))))
      | None => None
      end
  end.

End Py.
Import Py.

(* ------------------------------------------------------------------ *)
(** * Calendar dates: [datetime.strptime] and [strftime] *)

Module Dates.
Local Open Scope Z_scope.

Record date : Type := mkDate { year : Z; month : Z; day : Z }.

Definition is_leap (y : Z) : bool :=
  ((y mod 4 =? 0) && negb (y mod 100 =? 0)) || (y mod 400 =? 0).

Definition days_in_month (y m : Z) : Z :=
  if m =? 2 then (if is_leap y then 29 else 28)
  else if (m =? 4) || (m =? 6) || (m =? 9) || (m =? 11) then 30
  else 31.

(** The check the [datetime] constructor makes (MINYEAR = 1,
    MAXYEAR = 9999). *)
Definition valid_date (d : date) : bool :=
  (1 <=? year d) && (year d <=? 9999)
  && (1 <=? month d) && (month d <=? 12)
  && (1 <=? day d) && (day d <=? days_in_month (year d) (month d)).

Definition digit_range (lo hi : Z) : cclass :=
  CRange (digit_char lo) (digit_char hi).

(** The regular expressions [_strptime] substitutes for the directives. *)

(** [%m]: [1[0-2]|0[1-9]|[1-9]] *)
Definition re_m : regex :=
  Alt (Seq (Chr (CLit "1")) (Chr (digit_range 0 2)))
 (Alt (Seq (Chr (CLit "0")) (Chr (digit_range 1 9)))
      (Chr (digit_range 1 9))).

(** [%d]: [3[0-1]|[1-2]\d|0[1-9]|[1-9]| [1-9]] *)
Definition re_d : regex :=
  Alt (Seq (Chr (CLit "3")) (Chr (digit_range 0 1)))
 (Alt (Seq (Chr (digit_range 1 2)) (Chr CDigit))
 (Alt (Seq (Chr (CLit "0")) (Chr (digit_range 1 9)))
 (Alt (Chr (digit_range 1 9))
      (Seq (Chr (CLit " ")) (Chr (digit_range 1 9)))))).

(** [%y]: [\d\d] *)
Definition re_y : regex := Seq (Chr CDigit) (Chr CDigit).

(** [%Y]: [\d\d\d\d] *)
Definition re_Y : regex :=
  Seq (Chr CDigit) (Seq (Chr CDigit) (Seq (Chr CDigit) (Chr CDigit))).

(** The two formats the extractor uses. *)
Inductive format : Type :=
| Fmt_mdy    (* '%m/%d/%y' *)
| Fmt_mdY.   (* '%m/%d/%Y' *)

Definition re_year (f : format) : regex :=
  match f with Fmt_mdy => re_y | Fmt_mdY => re_Y end.

(** The match of the format's regular expression at the start of the data:
    the three groups and what is left over. *)
Definition strptime_groups (f : format) (s : string)
  : option (string * string * string * string) :=
  capture re_m s (fun m s1 =>
    matchk (Chr (CLit "/")) s1 (fun s2 =>
      capture re_d s2 (fun d s3 =>
        matchk (Chr (CLit "/")) s3 (fun s4 =>
          capture (re_year f) s4 (fun y s5 => Some (m, d, y, s5)))))).

(** A two-digit year: 00-68 is 2000-2068, 69-99 is 1969-1999. *)
Definition expand_year (f : format) (y : Z) : Z :=
  match f with
  | Fmt_mdy => if y <=? 68 then y + 2000 else y + 1900
  | Fmt_mdY => y
  end.

(** [datetime.strptime(s, f)]; [None] is [ValueError] (no match, unconverted
    data, or a day the month does not have). *)
Definition strptime (f : format) (s : string) : option date :=
  match strptime_groups f s with
  | Some (m, d, y, EmptyString) =>
      match py_int m, py_int d, py_int y with
      | Some m', Some d', Some y' =>
          let dt := mkDate (expand_year f y') m' d' in
          if valid_date dt then Some dt else None
      | _, _, _ => None
      end
  | Some (_, _, _, String _ _) => None
  | None => None
  end.

Definition pad2 (n : Z) : string :=
  String (digit_char (n / 10 mod 10)) (String (digit_char (n mod 10)) "").

Definition pad4 (n : Z) : string :=
  String (digit_char (n / 1000 mod 10))
    (String (digit_char (n / 100 mod 10)) (pad2 n)).

(** [d.strftime('%m/%d/%Y')], the year on four digits. *)
Definition strftime (d : date) : string :=
  pad2 (month d) ++ "/" ++ pad2 (day d) ++ "/" ++ pad4 (year d).

(** The same date written with a two-digit year, [MM/DD/YY]. *)
Definition two_digit_form (d : date) : string :=
  pad2 (month d) ++ "/" ++ pad2 (day d) ++ "/" ++ pad2 (year d mod 100).

(** The date coercion of [extract_pdf_data]: the body of the [try] and what
    the handler leaves in [value].  The second component tells whether the
    handler ran. *)
Definition coerce_date (value : string) : string * bool :=
  let parsed :=
    if Nat.eqb (String.length (last_token value)) 2
    then strptime Fmt_mdy value
    else strptime Fmt_mdY value in
  match parsed with
  | Some date_obj => (strftime date_obj, false)
  | None => (value, true)
  end.

(** The integers [lo], [lo + 1], ..., [lo + n - 1]. *)
Definition zrange (lo : Z) (n : nat) : list Z :=
  map (fun i => lo + Z.of_nat i) (seq 0 n).

End Dates.
Import Dates.

(* ------------------------------------------------------------------ *)
(** * Records and the log *)

Module Data.

(** A Python value held by a record, or a cell of the table. [Date] is a
    pandas timestamp, in nanoseconds since the epoch; [NaN] is the missing
    cell (NaN, NaT, an empty cell of the workbook). *)
Inductive value : Type :=
| NaN
| Str (s : string)
| Num (q : Q)
| Date (t : Z).

(** A [dict] with string keys, in insertion order. *)
Definition dict : Type := list (string * value).

Fixpoint dict_get (k : string) (d : dict) : option value :=
  match d with
  | [] => None
  | (k', v) :: d' => if String.eqb k k' then Some v else dict_get k d'
  end.

(** [d[k] = v]: an existing key keeps its place. *)
Fixpoint dict_set (k : string) (v : value) (d : dict) : dict :=
  match d with
  | [] => [(k, v)]
  | (k', v') :: d' =>
      if String.eqb k k' then (k, v) :: d' else (k', v') :: dict_set k v d'
  end.

(** Truth value of [data.get(k)] in a condition. *)
Definition truthy (o : option value) : bool :=
  match o with
  | None => false
  | Some (Str s) => negb (String.eqb s "")
  | Some (Num q) => negb (Qeq_bool q (inject_Z 0))
  | Some NaN => true
  | Some (Date _) => true
  end.

Inductive level : Type := INFO | WARNING | ERROR.

(** The calls to [logging], one constructor per call site. *)
Inductive event : Type :=
| LogText (text : option string)          (* "Extracted text:" and the text *)
| LogContractor (name : string)           (* "Extracted Contractor: ..." *)
| LogNoContractor                         (* "Could not find contractor name in PDF" *)
| LogDateError (raw : string)             (* "Error parsing date ..." *)
| LogExtracted (field : string) (v : value) (* "Extracted <field>: <value>" *)
| LogNotFound (field : string)            (* "Could not find <field> in PDF" *)
| LogProcessingError                      (* "Error processing PDF: ..." *)
| LogUpdated (task_order : option value)  (* "Successfully updated Excel file ..." *)
| LogAlreadyExists (task_order : option value) (* "Task order ... already exists ..." *)
| LogUpdateError                          (* "Error updating Excel file: ..." *)
| LogProcessing                           (* "Processing <pdf_file>" *)
| LogFailedExtract.                       (* "Failed to extract data from ..." *)

Definition level_of (e : event) : level :=
  match e with
  | LogText _ | LogContractor _ | LogExtracted _ _
  | LogUpdated _ | LogAlreadyExists _ | LogProcessing => INFO
  | LogNoContractor | LogNotFound _ => WARNING
  | LogDateError _ | LogProcessingError | LogUpdateError
  | LogFailedExtract => ERROR
  end.

End Data.
Import Data.

(* ------------------------------------------------------------------ *)
(** * The field extractor *)

Module Extractor.

Definition colon_blanks : list regex := [Opt (Chr (CLit ":")); Star CSpace].

Definition d2 : regex := Seq (Chr CDigit) (Chr CDigit).
Definition d4 : regex := Seq d2 d2.

(** [contractor_patterns] of [extract_contractor_name]. *)
Definition contractor_patterns : list pattern :=
  [ (* (Xpert'?s LLC) *)
    mkPattern Eps
      (seqs [lit "Xpert"; Opt (Chr (CLit "'")); lit "s LLC"]) Eps;
    (* (Ceres Environmental Services,\s*Inc\.?) *)
    mkPattern Eps
      (seqs [lit "Ceres Environmental Services,"; Star CSpace; lit "Inc";
             Opt (Chr (CLit "."))]) Eps;
    (* (Wright Tree Service of Puerto Rico,\s*LLC) *)
    mkPattern Eps
      (seqs [lit "Wright Tree Service of Puerto Rico,"; Star CSpace;
             lit "LLC"]) Eps ].

(** The loop of [extract_contractor_name]: the first pattern that is found
    decides. *)
Fixpoint first_match (ps : list pattern) (text : string) : option string :=
  match ps with
  | [] => None
  | p :: ps' =>
      match search p text with
      | Some g => Some (strip g)
      | None => first_match ps' text
      end
  end.

Definition extract_contractor_name (text : string) : option string :=
  first_match contractor_patterns text.

Definition date_group : regex :=
  seqs [d2; Chr (CLit "/"); d2; Chr (CLit "/"); Alt d2 d4].

(** The entries of [patterns] in [extract_pdf_data]. *)

(** [Task Order Number:?\s*([\w-]+)] *)
Definition pat_task_order : pattern :=
  mkPattern (seqs (lit "Task Order Number" :: colon_blanks))
    (Plus (CUnion CWord (CLit "-"))) Eps.

(** [Task Order Total Amount:?\s*\$?([\d,]+\.\d{2})] *)
Definition pat_total_amount : pattern :=
  mkPattern (seqs (lit "Task Order Total Amount"
                     :: (colon_blanks ++ [Opt (Chr (CLit "$"))])%list))
    (seqs [Plus (CUnion CDigit (CLit ",")); Chr (CLit "."); d2]) Eps.

(** [(?:Feeder|Feeder ID:?)\s*(\d{4}-\d{2})] *)
Definition pat_feeder_id : pattern :=
  mkPattern (seqs [Alt (lit "Feeder")
                       (Seq (lit "Feeder ID") (Opt (Chr (CLit ":"))));
                   Star CSpace])
    (seqs [d4; Chr (CLit "-"); d2]) Eps.

(** [Length:?\s*([\d.]+)\s*(?:overhead miles|Overhead miles)] *)
Definition pat_miles : pattern :=
  mkPattern (seqs (lit "Length" :: colon_blanks))
    (Plus (CUnion CDigit (CLit ".")))
    (seqs [Star CSpace; Alt (lit "overhead miles") (lit "Overhead miles")]).

(** [Work Orders:?\s*(\d+)(?:\s*WO locations)?] *)
Definition pat_work_orders : pattern :=
  mkPattern (seqs (lit "Work Orders" :: colon_blanks))
    (Plus CDigit)
    (Opt (Seq (Star CSpace) (lit "WO locations"))).

(** [Start Date:?\s*(\d{2}/\d{2}/(?:\d{2}|\d{4}))] *)
Definition pat_start_date : pattern :=
  mkPattern (seqs (lit "Start Date" :: colon_blanks)) date_group Eps.

(** [End Date:?\s*(\d{2}/\d{2}/(?:\d{2}|\d{4}))] *)
Definition pat_end_date : pattern :=
  mkPattern (seqs (lit "End Date" :: colon_blanks)) date_group Eps.

(** [patterns], in the order of the dict. *)
Definition patterns : list (string * pattern) :=
  [ ("Task Order #", pat_task_order);
    ("Total Amount", pat_total_amount);
    ("Feeder ID", pat_feeder_id);
    ("Feeder Total Miles", pat_miles);
    ("# of Work Orders", pat_work_orders);
    ("Task Order Start Date", pat_start_date);
    ("Task Order End Date", pat_end_date) ].

(** The conversion of the matched text [raw] ([value] in the source), by
    field.  [None]: the conversion
    raised and nothing in the loop catches it.  The events are those logged
    before [data[field] = value]. *)
Definition convert (field raw : string) : option (value * list event) :=
  if String.eqb field "Total Amount" then
    option_map (fun q => (Num q, [])) (py_float (remove_commas raw))
  else if String.eqb field "Feeder Total Miles" then
    option_map (fun q => (Num q, [])) (py_float raw)
  else if String.eqb field "# of Work Orders" then
    option_map (fun n => (Num (inject_Z n), [])) (py_int raw)
  else if contains "Date" field then
    match coerce_date raw with
    | (s, false) => Some (Str s, [])
    | (s, true) => Some (Str s, [LogDateError raw])
    end
  else Some (Str raw, []).

(** The loop over [patterns.items()]. The first component is [None] when an
    exception left the loop. *)
Fixpoint run_fields (text : string) (ps : list (string * pattern))
    (data : dict) (log : list event) : option dict * list event :=
  match ps with
  | [] => (Some data, log)
  | (field, p) :: ps' =>
      match search p text with
      | Some g =>
          match convert field (strip g) with
          | Some (v, evs) =>
              run_fields text ps' (dict_set field v data)
                (log ++ evs ++ [LogExtracted field v])%list
          | None => (None, (log ++ [LogProcessingError])%list)
          end
      | None => run_fields text ps' data (log ++ [LogNotFound field])%list
      end
  end.

(** The record the loop starts from: empty, or the contractor alone. *)
Definition initial_record (text : string) : dict :=
  match extract_contractor_name text with
  | Some name => if String.eqb name "" then [] else [("Contractor", Str name)]
  | None => []
  end.

(** The body of the [with] block, once the text of the first page is
    there. *)
Definition extract_fields (text : string) : option dict * list event :=
  match extract_contractor_name text with
  | Some name =>
      if String.eqb name "" then
        run_fields text patterns [] [LogText (Some text); LogNoContractor]
      else
        run_fields text patterns [("Contractor", Str name)]
          [LogText (Some text); LogContractor name]
  | None => run_fields text patterns [] [LogText (Some text); LogNoContractor]
  end.

(** What [pdfplumber] gives for the first page. *)
Inductive page : Type :=
| Unreadable                     (* open or [pages[0]] raised *)
| Page (text : option string).   (* [extract_text()], possibly [None] *)

(** [extract_pdf_data]: the record, or [None], and the log. *)
Definition extract_pdf_data (pg : page) : option dict * list event :=
  match pg with
  | Unreadable => (None, [LogProcessingError])
  | Page None => (None, [LogText None; LogProcessingError])
  | Page (Some text) => extract_fields text
  end.

End Extractor.
Import Extractor.

(* ------------------------------------------------------------------ *)
(** * The store merger *)

Module Merger.
Local Open Scope Z_scope.

(** A [DataFrame] without its index: the column labels and the rows, each
    row holding one cell per column. *)
Record DataFrame : Type := mkFrame {
  columns : list string;
  rows : list (list value)
}.

(** The [columns=] list of [update_excel]. *)
Definition store_columns : list string :=
  [ "Task Order #"; "Contractor"; "Total Amount"; "Feeder ID";
    "Feeder Total Miles"; "# of Work Orders";
    "Task Order Start Date"; "Task Order End Date" ].

(** [pd.DataFrame(columns=[...])] *)
Definition empty_frame : DataFrame := mkFrame store_columns [].

(** [pd.DataFrame([data])]: one row, the keys as columns. *)
Definition frame_of_dict (data : dict) : DataFrame :=
  mkFrame (map fst data) [map snd data].

Fixpoint col_index (c : string) (cols : list string) : option nat :=
  match cols with
  | [] => None
  | c' :: cols' =>
      if String.eqb c c' then Some 0%nat
      else option_map S (col_index c cols')
  end.

Definition has_col (cols : list string) (c : string) : bool :=
  match col_index c cols with Some _ => true | None => false end.

(** The cell of [row] under label [c], missing when the row has none. *)
Definition cell (cols : list string) (row : list value) (c : string) : value :=
  match col_index c cols with
  | Some i => nth i row NaN
  | None => NaN
  end.

(** A row laid out for another list of columns. *)
Definition reindex (cols cols' : list string) (row : list value)
  : list value :=
  map (cell cols row) cols'.

(** [pd.concat([a, b], ignore_index=True)]: the columns of [a], then those
    only [b] has; the rows of [a], then the rows of [b]. *)
Definition concat (a b : DataFrame) : DataFrame :=
  let cols :=
    (columns a ++ filter (fun c => negb (has_col (columns a) c)) (columns b))%list in
  mkFrame cols
    (map (reindex (columns a) cols) (rows a)
     ++ map (reindex (columns b) cols) (rows b))%list.

(** [df[c]]; [None] is [KeyError]. *)
Definition column (c : string) (df : DataFrame) : option (list value) :=
  match col_index c (columns df) with
  | Some i => Some (map (fun r => nth i r NaN) (rows df))
  | None => None
  end.

Fixpoint set_nth (i : nat) (v : value) (row : list value) : list value :=
  match i, row with
  | O, _ :: row' => v :: row'
  | S i', x :: row' => x :: set_nth i' v row'
  | _, [] => []
  end.

Fixpoint set_cells (i : nat) (vals : list value) (rs : list (list value))
  : list (list value) :=
  match vals, rs with
  | v :: vals', r :: rs' => set_nth i v r :: set_cells i vals' rs'
  | _, _ => rs
  end.

(** [df[c] = vals] for a column the frame has. *)
Definition set_column (c : string) (vals : list value) (df : DataFrame)
  : DataFrame :=
  match col_index c (columns df) with
  | Some i => mkFrame (columns df) (set_cells i vals (rows df))
  | None => df
  end.

(** What the model leaves to pandas: how a date string and a number are
    read by [to_datetime] ([None]: it raises), how [astype(str)] prints a
    cell that is not a string, and the table [read_excel] returns for a
    workbook that holds a given table (it types the cells anew: a text that
    reads as a number, or as one of the missing-value markers, does not come
    back as the text). *)
Record Pandas : Type := mkPandas {
  parse_datetime : string -> option Z;
  num_to_datetime : Q -> option Z;
  str_of_cell : value -> string;
  read_excel : DataFrame -> DataFrame
}.

Section WithPandas.
Variable pd : Pandas.

(** [pd.to_datetime] on one cell. *)
Definition to_datetime_cell (v : value) : option value :=
  match v with
  | NaN => Some NaN
  | Date t => Some (Date t)
  | Str s => option_map Date (parse_datetime pd s)
  | Num q => option_map Date (num_to_datetime pd q)
  end.

(** [pd.to_datetime] on a column; one cell that cannot be read makes the
    call raise. *)
Fixpoint to_datetime (col : list value) : option (list value) :=
  match col with
  | [] => Some []
  | v :: col' =>
      match to_datetime_cell v, to_datetime col' with
      | Some v', Some col'' => Some (v' :: col'')
      | _, _ => None
      end
  end.

(** What the assignment [df[c] = pd.to_datetime(df[c])] makes of one row,
    [i] being the place of the column. *)
Definition reparse (i : nat) (row : list value) : list value :=
  match to_datetime_cell (nth i row NaN) with
  | Some v => set_nth i v row
  | None => row
  end.

(** [astype(str)] on one cell. *)
Definition astype_str (v : value) : string :=
  match v with
  | Str s => s
  | _ => str_of_cell pd v
  end.

(** [series.astype(str).eq(task_order)] on one cell: a string equals only
    an equal string. *)
Definition eq_task_order (task_order : option value) (v : value) : bool :=
  match task_order with
  | Some (Str k) => String.eqb (astype_str v) k
  | _ => false
  end.

Definition sort_key (i : nat) (row : list value) : option Z :=
  match nth i row NaN with
  | Date t => Some t
  | _ => None
  end.

(** [x] may stand before [y] in descending order, missing dates last. *)
Definition desc_before (x y : option Z) : bool :=
  match x, y with
  | Some a, Some b => b <=? a
  | Some _, None => true
  | None, None => true
  | None, Some _ => false
  end.

(** Row [r1] may stand above row [r2] when sorting on column [i]. *)
Definition row_before (i : nat) (r1 r2 : list value) : Prop :=
  desc_before (sort_key i r1) (sort_key i r2) = true.

Fixpoint insert_desc (i : nat) (r : list value) (sorted : list (list value))
  : list (list value) :=
  match sorted with
  | [] => [r]
  | x :: xs =>
      if desc_before (sort_key i r) (sort_key i x) then r :: x :: xs
      else x :: insert_desc i r xs
  end.

Fixpoint sort_desc (i : nat) (rs : list (list value)) : list (list value) :=
  match rs with
  | [] => []
  | r :: rs' => insert_desc i r (sort_desc i rs')
  end.

(** [df.sort_values(c, ascending=False)]: descending, rows without a date
    last.  pandas leaves the order of rows with equal dates open; this
    sort keeps them as they were. *)
Definition sort_values (c : string) (df : DataFrame) : DataFrame :=
  match col_index c (columns df) with
  | Some i => mkFrame (columns df) (sort_desc i (rows df))
  | None => df
  end.

Inductive outcome : Type :=
| Written (df : DataFrame)   (* a row was added and the file written *)
| Exists                     (* the [else] branch *)
| Error.                     (* the [except] branch *)

(** The [try] block of [update_excel] on the table it loaded. *)
Definition merge (data : dict) (df : DataFrame) : outcome :=
  let task_order := dict_get "Task Order #" data in
  if truthy task_order then
    match column "Task Order #" df with
    | None => Error
    | Some keys =>
        if existsb (eq_task_order task_order) keys then Exists
        else
          let df1 := concat df (frame_of_dict data) in
          match column "Task Order Start Date" df1 with
          | None => Error
          | Some dates =>
              match to_datetime dates with
              | None => Error
              | Some dates' =>
                  Written
                    (sort_values "Task Order Start Date"
                       (set_column "Task Order Start Date" dates' df1))
              end
          end
    end
  else Exists.

(** [update_excel]: the store is the table the workbook holds, [None] while
    the file does not exist; the table worked on is what [read_excel] makes
    of it.  The result is the store afterwards and the log. *)
Definition update_excel (data : dict) (store : option DataFrame)
  : option DataFrame * list event :=
  let df :=
    match store with
    | Some written => read_excel pd written
    | None => empty_frame
    end in
  let task_order := dict_get "Task Order #" data in
  match merge data df with
  | Written df' => (Some df', [LogUpdated task_order])
  | Exists => (store, [LogAlreadyExists task_order])
  | Error => (store, [LogUpdateError])
  end.

(** One turn of the loop of [main]: extract, then merge a non-empty
    record. *)
Definition process_pdf (pg : page) (store : option DataFrame)
  : option DataFrame * list event :=
  match extract_pdf_data pg with
  | (Some ((_ :: _) as data), log) =>
      let '(store', log') := update_excel data store in
      (store', (LogProcessing :: log ++ log')%list)
  | (_, log) => (store, (LogProcessing :: log ++ [LogFailedExtract])%list)
  end.

(** The loop of [main] over the PDFs of the input folder, in the order
    [glob] yields them; the store is the workbook between two documents. *)
Fixpoint run_batch (pages : list page) (store : option DataFrame)
  : option DataFrame * list event :=
  match pages with
  | [] => (store, [])
  | pg :: pages' =>
      let '(store1, log1) := process_pdf pg store in
      let '(store2, log2) := run_batch pages' store1 in
      (store2, (log1 ++ log2)%list)
  end.

End WithPandas.

(** The field order of the data model as the specification lists it
    (section 3), to compare with [store_columns]. *)
Definition spec_column_order : list string :=
  [ "Contractor"; "Task Order #"; "Total Amount"; "Feeder ID";
    "Feeder Total Miles"; "# of Work Orders";
    "Task Order Start Date"; "Task Order End Date" ].

(** A cell holds a timestamp or nothing. *)
Definition is_date_or_missing (v : value) : Prop :=
  match v with
  | NaN | Date _ => True
  | Str _ | Num _ => False
  end.

(** In a column sorted by [sort_values(ascending=False)], [v1] may stand
    above [v2]: a later date above an earlier one, any cell above a missing
    one. *)
Definition not_before (v1 v2 : value) : Prop :=
  match v1, v2 with
  | Date a, Date b => b <= a
  | _, NaN => True
  | _, _ => False
  end.

(** A shape of the table [update_excel] has loaded: the columns of
    [update_excel], one cell per column in every row, a non-empty string as
    'Task Order #' (column 0) and no two rows with the same one, a timestamp
    or nothing as 'Task Order Start Date' (column 6), later dates first. *)
Definition store_ok (df : DataFrame) : Prop :=
  columns df = store_columns
  /\ Forall (fun r => List.length r = List.length store_columns) (rows df)
  /\ Forall (fun r => exists k, nth 0 r NaN = Str k /\ k <> "") (rows df)
  /\ NoDup (map (fun r => nth 0 r NaN) (rows df))
  /\ Forall (fun r => is_date_or_missing (nth 6 r NaN)) (rows df)
  /\ StronglySorted (row_before 6) (rows df).

(** Days from 1970-01-01 to a civil date. *)
Definition days_from_civil (d : date) : Z :=
  let y := if month d <=? 2 then year d - 1 else year d in
  let era := y / 400 in
  let yoe := y - era * 400 in
  let mp := (month d + 9) mod 12 in
  let doy := (153 * mp + 2) / 5 + day d - 1 in
  let doe := yoe * 365 + yoe / 4 - yoe / 100 + doy in
  era * 146097 + doe - 719468.

Definition ns_per_day : Z := 86400 * 1000000000.

(** The texts [read_excel] takes for a missing value (its default
    [na_values]). *)
Definition na_strings : list string :=
  [ ""; "#N/A"; "#N/A N/A"; "#NA"; "-1.#IND"; "-1.#QNAN"; "-NaN"; "-nan";
    "1.#IND"; "1.#QNAN"; "<NA>"; "N/A"; "NA"; "NULL"; "NaN"; "None";
    "n/a"; "nan"; "null" ].

Definition read_na (v : value) : value :=
  match v with
  | Str s => if existsb (String.eqb s) na_strings then NaN else v
  | _ => v
  end.

Definition reads_as_number (v : value) : bool :=
  match v with
  | NaN | Num _ => true
  | Str s => match py_float s with Some _ => true | None => false end
  | Date _ => false
  end.

Definition as_number (v : value) : value :=
  match v with
  | Str s => match py_float s with Some q => Num q | None => v end
  | _ => v
  end.

(** One column as [read_excel] types it: the missing-value markers become
    missing cells, and when every cell then reads as a number the texts
    become numbers. *)
Definition read_column (col : list value) : list value :=
  let col' := map read_na col in
  if forallb reads_as_number col' then map as_number col' else col'.

(** The table [read_excel] returns for a workbook that holds [df]. *)
Definition read_back (df : DataFrame) : DataFrame :=
  let cols :=
    map (fun i => read_column (map (fun r => nth i r NaN) (rows df)))
        (seq 0 (List.length (columns df))) in
  mkFrame (columns df)
    (map (fun j => map (fun col => nth j col NaN) cols)
         (seq 0 (List.length (rows df)))).

(** [astype(str)] on a cell that is not a string: [nan] for a missing cell,
    the digits for a whole number; any other number and a timestamp print
    with a dot, a colon or a blank, which no text of [[\w-]+] contains. *)
Definition print_cell (v : value) : string :=
  match v with
  | NaN => "nan"
  | Num q =>
      if (Zpos (Qden q) =? 1)%Z then NilZero.string_of_int (Z.to_int (Qnum q))
      else " "
  | Date _ => " "
  | Str s => s
  end.

(** An instance of the pandas parameters, for running the merger: a date
    string is read in the canonical form the extractor writes, a number is
    a count of nanoseconds, cells print by [print_cell] and the workbook is
    read back by [read_back]. *)
Definition pandas_mdY : Pandas :=
  mkPandas
    (fun s => option_map (fun d => days_from_civil d * ns_per_day)
                (strptime Fmt_mdY s))
    (fun q => Some (Qnum q / Zpos (Qden q)))
    print_cell
    read_back.

(** Tables and records to run the merger on. *)
Definition one_row_store : DataFrame :=
  mkFrame store_columns
    [[Str "A1"; NaN; NaN; NaN; NaN; NaN; Date 1705276800000000000; NaN]].


Definition two_row_store : DataFrame :=
  mkFrame store_columns
    [[Str "B2"; NaN; NaN; NaN; NaN; NaN; Date 1709251200000000000; NaN];
     [Str "A1"; NaN; NaN; NaN; NaN; NaN; Date 1705276800000000000; NaN]].

Definition keyless_record : dict :=
  [("Contractor", Str "Xpert's LLC");
   ("Task Order Start Date", Str "03/01/2024")].

Definition second_record : dict :=
  [("Task Order #", Str "B2"); ("Task Order Start Date", Str "03/01/2024")].

Definition na_record : dict :=
  [("Task Order #", Str "NA"); ("Task Order Start Date", Str "03/01/2024")].

Definition zeros_record : dict :=
  [("Task Order #", Str "001"); ("Task Order Start Date", Str "03/01/2024")].

End Merger.
Import Merger.

(* ================================================================== *)
(** * Facts about strings *)

Unset Implicit Arguments.
Open Scope Z_scope.

Section StringFacts.

Lemma app_nil_r_s (s : string) : s ++ "" = s.
Proof. induction s as [|c s IH]; simpl; [reflexivity | now rewrite IH]. Qed.

Lemma app_assoc_s (a b c : string) : (a ++ b) ++ c = a ++ (b ++ c).
Proof. induction a as [|x a IH]; simpl; [reflexivity | now rewrite IH]. Qed.

Lemma length_app_s (a b : string) :
  String.length (a ++ b) = (String.length a + String.length b)%nat.
Proof. induction a as [|x a IH]; simpl; [reflexivity | now rewrite IH]. Qed.

Lemma substring_whole_prefix (w s : string) :
  substring 0 (String.length w) (w ++ s) = w.
Proof.
  induction w as [|x w IH]; simpl.
  - destruct s; reflexivity.
  - now rewrite IH.
Qed.

Lemma consumed_app (w s : string) : consumed (w ++ s) s = w.
Proof.
  unfold consumed. rewrite length_app_s.
  replace (String.length w + String.length s - String.length s)%nat
    with (String.length w) by lia.
  apply substring_whole_prefix.
Qed.

End StringFacts.

(* ================================================================== *)
(** * The matcher only reports what the pattern describes *)

Section MatcherSound.
Variable A : Type.

Lemma star_k_sound (cl : cclass) (s : string) (k : string -> option A)
      (a : A) :
  star_k cl s k = Some a ->
  exists w s', s = w ++ s' /\ lang (Star cl) w /\ k s' = Some a.
Proof.
  induction s as [|x s IH]; simpl; intros H.
  - exists "", "". repeat split; [constructor | exact H].
  - destruct (in_class cl x) eqn:Hx.
    + destruct (star_k cl s k) as [a'|] eqn:Hs.
      * inversion H; subst a'.
        destruct (IH eq_refl) as (w & s' & -> & Hw & Hk).
        exists (String x w), s'. repeat split; [now constructor | exact Hk].
      * exists "", (String x s). repeat split; [constructor | exact H].
    + exists "", (String x s). repeat split; [constructor | exact H].
Qed.

Lemma matchk_sound (r : regex) :
  forall (s : string) (k : string -> option A) (a : A),
    matchk r s k = Some a ->
    exists w s', s = w ++ s' /\ lang r w /\ k s' = Some a.
Proof.
  induction r as [|cl|r1 IH1 r2 IH2|r1 IH1 r2 IH2|r IH|cl];
    simpl; intros s k a H.
  - exists "", s. repeat split; [constructor | exact H].
  - destruct s as [|x s]; [discriminate|].
    destruct (in_class cl x) eqn:Hx; [|discriminate].
    exists (String x ""), s. repeat split; [now constructor | exact H].
  - destruct (IH1 _ _ _ H) as (w1 & s1 & -> & Hw1 & H1).
    destruct (IH2 _ _ _ H1) as (w2 & s2 & -> & Hw2 & H2).
    exists (w1 ++ w2), s2. rewrite app_assoc_s.
    repeat split; [now constructor | exact H2].
  - destruct (matchk r1 s k) as [a'|] eqn:H1.
    + inversion H; subst a'.
      destruct (IH1 _ _ _ H1) as (w & s' & -> & Hw & Hk).
      exists w, s'. repeat split; [now apply L_alt_l | exact Hk].
    + destruct (IH2 _ _ _ H) as (w & s' & -> & Hw & Hk).
      exists w, s'. repeat split; [now apply L_alt_r | exact Hk].
  - destruct (matchk r s k) as [a'|] eqn:H1.
    + inversion H; subst a'.
      destruct (IH _ _ _ H1) as (w & s' & -> & Hw & Hk).
      exists w, s'. repeat split; [now apply L_opt_some | exact Hk].
    + exists "", s. repeat split; [apply L_opt_none | exact H].
  - now apply star_k_sound.
Qed.

Lemma capture_sound (r : regex) (s : string)
      (k : string -> string -> option A) (a : A) :
  capture r s k = Some a ->
  exists w s', s = w ++ s' /\ lang r w /\ k w s' = Some a.
Proof.
  unfold capture. intros H.
  apply matchk_sound in H as (w & s' & -> & Hw & Hk).
  rewrite consumed_app in Hk. now exists w, s'.
Qed.

End MatcherSound.

Lemma match_here_sound (p : pattern) (s g : string) :
  match_here p s = Some g -> lang (grp p) g.
Proof.
  unfold match_here. intros H.
  apply matchk_sound in H as (w1 & s1 & _ & _ & H1).
  apply capture_sound in H1 as (w2 & s2 & _ & Hw2 & H2).
  apply matchk_sound in H2 as (_ & _ & _ & _ & H3).
  now inversion H3; subst.
Qed.

Lemma search_sound (p : pattern) (s g : string) :
  search p s = Some g -> lang (grp p) g.
Proof.
  induction s as [|x s IH]; simpl; intros H.
  - destruct (match_here p "") eqn:E; [|discriminate].
    inversion H; subst. eapply match_here_sound; eauto.
  - destruct (match_here p (String x s)) eqn:E.
    + inversion H; subst. eapply match_here_sound; eauto.
    + auto.
Qed.

(* ================================================================== *)
(** * Facts about characters and the builtins *)

Ltac by_cases_on_char c :=
  destruct c as [[] [] [] [] [] [] [] []]; vm_compute;
  try reflexivity; try discriminate; auto.

Lemma digit_not_space (c : ascii) : is_digit c = true -> not_space c = true.
Proof. by_cases_on_char c. Qed.

Lemma digit_not_comma (c : ascii) :
  is_digit c = true -> (code c =? 44)%N = false.
Proof. by_cases_on_char c. Qed.

Lemma digit_not_sign (c : ascii) :
  is_digit c = true -> (code c =? 45)%N = false /\ (code c =? 43)%N = false.
Proof. by_cases_on_char c. Qed.

Lemma lit_dot (c : ascii) : in_class (CLit ".") c = true -> c = "."%char.
Proof. by_cases_on_char c. Qed.

Lemma lit_slash (c : ascii) : in_class (CLit "/") c = true -> c = "/"%char.
Proof. by_cases_on_char c. Qed.

Lemma digit_or_comma (c : ascii) :
  in_class (CUnion CDigit (CLit ",")) c = true ->
  is_digit c = true \/ c = ","%char.
Proof. by_cases_on_char c. Qed.

Lemma all_chars_app (P : ascii -> bool) (a b : string) :
  all_chars P (a ++ b) = all_chars P a && all_chars P b.
Proof.
  induction a as [|x a IH]; simpl; [reflexivity|].
  now rewrite IH, andb_assoc.
Qed.

Lemma all_chars_impl (P Q : ascii -> bool) (s : string) :
  (forall c, P c = true -> Q c = true) ->
  all_chars P s = true -> all_chars Q s = true.
Proof.
  intros HPQ. induction s as [|x s IH]; simpl; [reflexivity|].
  intros H. apply andb_true_iff in H as [Hx Hs].
  now rewrite (HPQ _ Hx), IH.
Qed.

Lemma lang_star_all (cl : cclass) (w : string) :
  lang (Star cl) w -> all_chars (in_class cl) w = true.
Proof.
  intros H. remember (Star cl) as r eqn:Er.
  induction H; try discriminate; inversion Er; subst; simpl.
  - reflexivity.
  - rewrite H. now apply IHlang.
Qed.

Lemma lstrip_id (c : ascii) (s : string) :
  not_space c = true -> lstrip (String c s) = String c s.
Proof.
  unfold not_space. simpl. now destruct (is_space c).
Qed.

Lemma rstrip_no_space (s : string) :
  all_chars not_space s = true -> rstrip s = s.
Proof.
  induction s as [|c s IH]; simpl; [reflexivity|].
  intros H. apply andb_true_iff in H as [Hc Hs].
  rewrite (IH Hs). unfold not_space in Hc.
  destruct s; [now destruct (is_space c) | reflexivity].
Qed.

Lemma strip_no_space (s : string) :
  all_chars not_space s = true -> strip s = s.
Proof.
  intros H. unfold strip.
  destruct s as [|c s]; [reflexivity|].
  simpl in H. apply andb_true_iff in H as [Hc Hs].
  rewrite lstrip_id by exact Hc.
  apply rstrip_no_space. simpl. now rewrite Hc.
Qed.

Lemma remove_commas_app (a b : string) :
  remove_commas (a ++ b) = remove_commas a ++ remove_commas b.
Proof.
  induction a as [|x a IH]; simpl; [reflexivity|].
  destruct (code x =? 44)%N; simpl; now rewrite IH.
Qed.

Lemma remove_commas_digits (s : string) :
  all_chars (in_class (CUnion CDigit (CLit ","))) s = true ->
  all_chars is_digit (remove_commas s) = true.
Proof.
  induction s as [|x s IH]; simpl; [reflexivity|].
  intros H. apply andb_true_iff in H as [Hx Hs].
  destruct (digit_or_comma _ Hx) as [Hd | ->].
  - rewrite (digit_not_comma _ Hd). simpl. now rewrite Hd, IH.
  - simpl. now apply IH.
Qed.

Lemma span_digits_app (ds : string) (c : ascii) (rest : string) :
  all_chars is_digit ds = true -> is_digit c = false ->
  span_digits (ds ++ String c rest) = (ds, String c rest).
Proof.
  intros Hds Hc. induction ds as [|x ds IH]; simpl.
  - now rewrite Hc.
  - simpl in Hds. apply andb_true_iff in Hds as [Hx Hds].
    now rewrite Hx, (IH Hds).
Qed.

Lemma span_digits_all (ds : string) :
  all_chars is_digit ds = true -> span_digits ds = (ds, "").
Proof.
  induction ds as [|x ds IH]; simpl; [reflexivity|].
  intros H. apply andb_true_iff in H as [Hx Hds].
  now rewrite Hx, (IH Hds).
Qed.

Lemma take_sign_digit_or_dot (s : string) (c : ascii) :
  is_digit c = true \/ c = "."%char ->
  take_sign (String c s) = (false, String c s).
Proof.
  intros [Hd | ->]; [|reflexivity].
  unfold take_sign. destruct (digit_not_sign _ Hd) as [-> ->]. reflexivity.
Qed.

(** [float] reads every string made of digits, a dot and two digits; the
    digits before the dot may be missing. *)
Lemma py_float_fixed2 (ds : string) (a b : ascii) :
  all_chars is_digit ds = true -> is_digit a = true -> is_digit b = true ->
  exists q, py_float (ds ++ String "." (String a (String b ""))) = Some q.
Proof.
  intros Hds Ha Hb.
  set (s := ds ++ String "." (String a (String b ""))).
  assert (Hns : all_chars not_space s = true).
  { unfold s. rewrite all_chars_app.
    rewrite (all_chars_impl _ _ _ digit_not_space Hds). simpl.
    now rewrite (digit_not_space _ Ha), (digit_not_space _ Hb). }
  assert (Hsign : take_sign s = (false, s)).
  { unfold s. destruct ds as [|x ds]; simpl app.
    - apply take_sign_digit_or_dot. now right.
    - apply take_sign_digit_or_dot. left.
      simpl in Hds. now apply andb_true_iff in Hds as [Hx _]. }
  unfold py_float. rewrite (strip_no_space _ Hns), Hsign.
  unfold s. rewrite (span_digits_app _ _ _ Hds) by reflexivity.
  change (code "." =? 46)%N with true. cbv iota.
  rewrite (span_digits_all (String a (String b ""))) by (simpl; now rewrite Ha, Hb).
  destruct ds; simpl; eexists; reflexivity.
Qed.

(** [int] reads every run of digits that is not empty and not longer than
    the interpreter allows. *)
Lemma py_int_digits (ds : string) :
  all_chars is_digit ds = true -> ds <> "" ->
  (String.length ds <= int_max_str_digits)%nat ->
  py_int ds = Some (digits_value 0 ds).
Proof.
  intros Hds Hne Hlen. unfold py_int.
  rewrite strip_no_space by exact (all_chars_impl _ _ _ digit_not_space Hds).
  destruct ds as [|x ds]; [congruence|].
  assert (Hx : is_digit x = true).
  { simpl in Hds. now apply andb_true_iff in Hds as [Hx _]. }
  rewrite take_sign_digit_or_dot by now left.
  rewrite (span_digits_all _ Hds).
  apply Nat.leb_le in Hlen. now rewrite Hlen.
Qed.

(* ================================================================== *)
(** * The shape of what the patterns capture *)

Ltac inv_lang :=
  repeat match goal with
  | H : lang Eps _ |- _ => inversion H; subst; clear H
  | H : lang (Chr _) _ |- _ => inversion H; subst; clear H
  | H : lang (Seq _ _) _ |- _ => inversion H; subst; clear H
  | H : lang (Alt _ _) _ |- _ => inversion H; subst; clear H
  | H : lang (Opt _) _ |- _ => inversion H; subst; clear H
  end.

Ltac pick_pattern H :=
  simpl in H;
  repeat (destruct H as [H | H]; [try discriminate H|]);
  try contradiction.

(** What [[\d,]+\.\d{2}] captures: digits and commas, a dot, two digits. *)
Lemma amount_shape (g : string) :
  lang (seqs [Plus (CUnion CDigit (CLit ",")); Chr (CLit "."); d2]) g ->
  exists w a b,
    g = w ++ String "." (String a (String b ""))
    /\ all_chars (in_class (CUnion CDigit (CLit ","))) w = true
    /\ is_digit a = true /\ is_digit b = true.
Proof.
  unfold Plus, d2. cbn [seqs]. intros H. inv_lang.
  match goal with H : lang (Star _) _ |- _ => apply lang_star_all in H end.
  match goal with H : in_class (CLit ".") _ = true |- _ =>
    apply lit_dot in H; subst end.
  simpl. rewrite ?app_assoc_s. simpl.
  match goal with
  | |- exists w a b,
         String ?x (?w2 ++ String "." (String ?a0 (String ?b0 ""))) = _ /\ _ =>
      exists (String x w2), a0, b0
  end.
  simpl in *. repeat split; auto.
  apply andb_true_iff; split; assumption.
Qed.

(** What the two date patterns capture: [dd/dd/dd] or [dd/dd/dddd]. *)
Lemma date_shape (g : string) :
  lang date_group g ->
  all_chars not_space g = true
  /\ exists a b c d y,
       g = String a (String b (String "/" (String c (String d (String "/" y)))))
       /\ is_digit a = true /\ is_digit b = true
       /\ is_digit c = true /\ is_digit d = true
       /\ all_chars is_digit y = true
       /\ (String.length y = 2 \/ String.length y = 4)%nat.
Proof.
  unfold date_group, d4, d2. cbn [seqs]. intros H. inv_lang;
    repeat match goal with H : in_class (CLit "/") _ = true |- _ =>
      apply lit_slash in H; subst end;
    simpl in *;
    (split;
     [ repeat match goal with H : is_digit ?x = true |- _ =>
         rewrite (digit_not_space x H); clear H end; reflexivity
     | do 5 eexists; split; [reflexivity|];
       repeat match goal with
              | |- _ /\ _ => split
              | |- _ && _ = true => apply andb_true_iff
              | |- all_chars _ (String _ _) = true => simpl
              end; auto ]).
Qed.

(** Looking a field up in the pattern table. *)
Lemma patterns_fields (f : string) (p : pattern) :
  In (f, p) patterns -> In f (map fst patterns).
Proof. intros H. now apply (in_map fst) in H. Qed.

(* ================================================================== *)
(** * Facts about records *)

Lemma dict_get_set_same (k : string) (v : value) (d : dict) :
  dict_get k (dict_set k v d) = Some v.
Proof.
  induction d as [|[k' v'] d IH]; simpl.
  - now rewrite String.eqb_refl.
  - destruct (String.eqb k k') eqn:E; simpl.
    + now rewrite String.eqb_refl.
    + now rewrite E.
Qed.

Lemma dict_get_set_other (k k' : string) (v : value) (d : dict) :
  k <> k' -> dict_get k (dict_set k' v d) = dict_get k d.
Proof.
  intros Hne. induction d as [|[k0 v0] d IH]; simpl.
  - apply String.eqb_neq in Hne. now rewrite Hne.
  - destruct (String.eqb k' k0) eqn:E; simpl.
    + apply String.eqb_eq in E; subst k0.
      apply String.eqb_neq in Hne. now rewrite Hne.
    + now rewrite IH.
Qed.

Lemma dict_set_keys (k : string) (v : value) (d : dict) :
  incl (map fst (dict_set k v d)) (k :: map fst d).
Proof.
  induction d as [|[k' v'] d IH]; simpl.
  - apply incl_refl.
  - destruct (String.eqb k k') eqn:E; simpl.
    + apply String.eqb_eq in E; subst k'.
      intros x [Hx | Hx]; [now left | now right; right].
    + intros x [Hx | Hx]; [now right; left|].
      destruct (IH x Hx) as [H | H]; [now left | now right; right].
Qed.

(** A conversion that raises is one of the three numeric ones. *)
Lemma convert_raises (f raw : string) :
  convert f raw = None ->
  (f = "Total Amount" /\ py_float (remove_commas raw) = None)
  \/ (f = "Feeder Total Miles" /\ py_float raw = None)
  \/ (f = "# of Work Orders" /\ py_int raw = None).
Proof.
  unfold convert.
  destruct (String.eqb_spec f "Total Amount") as [-> | _].
  { destruct (py_float (remove_commas raw)); [discriminate | auto]. }
  destruct (String.eqb_spec f "Feeder Total Miles") as [-> | _].
  { destruct (py_float raw); [discriminate | auto]. }
  destruct (String.eqb_spec f "# of Work Orders") as [-> | _].
  { destruct (py_int raw); [discriminate | auto 6]. }
  destruct (contains "Date" f); [|discriminate].
  destruct (coerce_date raw) as [s []]; discriminate.
Qed.

(** The loop only ever adds to the log. *)
Lemma run_fields_log (text : string) (ps : list (string * pattern)) :
  forall data log,
    exists rest, snd (run_fields text ps data log) = (log ++ rest)%list.
Proof.
  induction ps as [|[f p] ps IH]; simpl; intros data log.
  - exists []. now rewrite app_nil_r.
  - destruct (search p text) as [g|].
    + destruct (convert f (strip g)) as [[v evs]|].
      * destruct (IH (dict_set f v data) (log ++ evs ++ [LogExtracted f v])%list)
          as [rest ->].
        exists (evs ++ [LogExtracted f v] ++ rest)%list.
        now rewrite <- !app_assoc.
      * now exists [LogProcessingError].
    + destruct (IH data (log ++ [LogNotFound f])%list) as [rest ->].
      exists ([LogNotFound f] ++ rest)%list. now rewrite <- app_assoc.
Qed.

(** The loop returns a record as soon as no conversion raises. *)
Lemma run_fields_returns (text : string) (ps : list (string * pattern)) :
  (forall f p g, In (f, p) ps -> search p text = Some g ->
                 convert f (strip g) <> None) ->
  forall data log, exists data', fst (run_fields text ps data log) = Some data'.
Proof.
  induction ps as [|[f p] ps IH]; simpl; intros Hok data log.
  - now exists data.
  - assert (Hok' : forall f p g, In (f, p) ps -> search p text = Some g ->
                                 convert f (strip g) <> None)
      by (intros; eapply Hok; eauto).
    destruct (search p text) as [g|] eqn:Es.
    + destruct (convert f (strip g)) as [[v evs]|] eqn:Ec.
      * apply (IH Hok').
      * exfalso. now apply (Hok f p g); auto.
    + apply (IH Hok').
Qed.

(** When the loop leaves without a record, a conversion raised. *)
Lemma run_fields_aborts (text : string) (ps : list (string * pattern)) :
  forall data log,
    fst (run_fields text ps data log) = None ->
    exists f p g, In (f, p) ps /\ search p text = Some g
                  /\ convert f (strip g) = None.
Proof.
  induction ps as [|[f p] ps IH]; simpl; intros data log H.
  - discriminate.
  - destruct (search p text) as [g|] eqn:Es.
    + destruct (convert f (strip g)) as [[v evs]|] eqn:Ec.
      * destruct (IH _ _ H) as (f' & p' & g' & Hin & Hs & Hc).
        exists f', p', g'. auto.
      * exists f, p, g. auto.
    + destruct (IH _ _ H) as (f' & p' & g' & Hin & Hs & Hc).
      exists f', p', g'. auto.
Qed.

(** What the returned record holds under a key of the table and under any
    other key. *)
Lemma run_fields_get (text : string) (ps : list (string * pattern)) :
  NoDup (map fst ps) ->
  forall data log data',
    fst (run_fields text ps data log) = Some data' ->
    (forall f p, In (f, p) ps ->
       dict_get f data' =
       match search p text with
       | Some g => option_map fst (convert f (strip g))
       | None => dict_get f data
       end)
    /\ (forall k, ~ In k (map fst ps) -> dict_get k data' = dict_get k data).
Proof.
  induction ps as [|[f p] ps IH]; simpl; intros Hnd data log data' H.
  - inversion H; subst. split; [contradiction | reflexivity].
  - inversion Hnd as [|? ? Hnotin Hnd']; subst.
    assert (Hne : forall f' p', In (f', p') ps -> f' <> f).
    { intros f' p' Hin ->. apply Hnotin. now apply (in_map fst) in Hin. }
    destruct (search p text) as [g|] eqn:Es.
    + destruct (convert f (strip g)) as [[v evs]|] eqn:Ec; [|discriminate].
      destruct (IH Hnd' _ _ _ H) as [Hin Hout]. split.
      * intros f' p' [Heq | Hin'].
        -- inversion Heq; subst. rewrite Es, Ec. simpl.
           rewrite (Hout _ Hnotin). apply dict_get_set_same.
        -- rewrite (Hin _ _ Hin').
           destruct (search p' text); [reflexivity|].
           apply dict_get_set_other. eapply Hne; eauto.
      * intros k Hk. rewrite Hout by tauto.
        apply dict_get_set_other. intros ->. tauto.
    + destruct (IH Hnd' _ _ _ H) as [Hin Hout]. split.
      * intros f' p' [Heq | Hin'].
        -- inversion Heq; subst. rewrite Es. now apply Hout.
        -- now apply Hin.
      * intros k Hk. apply Hout. tauto.
Qed.

(** The keys of the returned record are keys it had or fields of the
    table. *)
Lemma run_fields_keys (text : string) (ps : list (string * pattern)) :
  forall data log data',
    fst (run_fields text ps data log) = Some data' ->
    incl (map fst data') (map fst ps ++ map fst data).
Proof.
  induction ps as [|[f p] ps IH]; simpl; intros data log data' H.
  - inversion H; subst. apply incl_refl.
  - destruct (search p text) as [g|].
    + destruct (convert f (strip g)) as [[v evs]|]; [|discriminate].
      intros k Hk. apply (IH _ _ _ H) in Hk.
      apply in_app_or in Hk as [Hk | Hk].
      * right. apply in_or_app. now left.
      * apply dict_set_keys in Hk as [<- | Hk]; [now left|].
        right. apply in_or_app. now right.
    + intros k Hk. apply (IH _ _ _ H) in Hk.
      apply in_app_or in Hk as [Hk | Hk]; right; apply in_or_app; auto.
Qed.

Lemma patterns_nodup : NoDup (map fst patterns).
Proof.
  simpl. repeat constructor; simpl; intuition discriminate.
Qed.

(* ================================================================== *)
(** * Conversions that cannot raise *)

Lemma digit_or_comma_not_space (c : ascii) :
  in_class (CUnion CDigit (CLit ",")) c = true -> not_space c = true.
Proof. by_cases_on_char c. Qed.

(** Whatever [[\d,]+\.\d{2}] captured, [float] reads it once the commas are
    gone. *)
Lemma amount_converts (g : string) :
  lang (seqs [Plus (CUnion CDigit (CLit ",")); Chr (CLit "."); d2]) g ->
  exists q, py_float (remove_commas (strip g)) = Some q.
Proof.
  intros H. apply amount_shape in H as (w & a & b & -> & Hw & Ha & Hb).
  rewrite strip_no_space.
  - rewrite remove_commas_app. simpl.
    rewrite (digit_not_comma _ Ha), (digit_not_comma _ Hb).
    apply py_float_fixed2; auto. now apply remove_commas_digits.
  - rewrite all_chars_app.
    rewrite (all_chars_impl _ _ _ digit_or_comma_not_space Hw). simpl.
    now rewrite (digit_not_space _ Ha), (digit_not_space _ Hb).
Qed.

(** C10. Whenever the 'Total Amount' pattern matches, the conversion
    [float(value.replace(',', ''))] succeeds: the captured text is digits and
    commas, a dot and two digits, and [float] reads every such text once the
    commas are removed.  The conversion of this field never raises. *)
Theorem total_amount_always_converts (text raw : string) (p : pattern) :
  In ("Total Amount", p) patterns ->
  search p text = Some raw ->
  exists q,
    py_float (remove_commas (strip raw)) = Some q
    /\ convert "Total Amount" (strip raw) = Some (Num q, []).
Proof.
  intros Hin Hs. pick_pattern Hin. inversion Hin; subst p; clear Hin.
  apply search_sound in Hs. simpl grp in Hs.
  destruct (amount_converts _ Hs) as [q Hq].
  exists q. split; [exact Hq|].
  unfold convert. simpl String.eqb. now rewrite Hq.
Qed.

Lemma total_amount_always_converts_witness :
  In ("Total Amount", pat_total_amount) patterns
  /\ search pat_total_amount "Task Order Total Amount: $12,500.00"
     = Some "12,500.00"
  /\ exists q,
       py_float (remove_commas (strip "12,500.00")) = Some q
       /\ convert "Total Amount" (strip "12,500.00") = Some (Num q, []).
Proof.
  split; [simpl; auto|]. split; [reflexivity|].
  apply (total_amount_always_converts
           "Task Order Total Amount: $12,500.00" "12,500.00" pat_total_amount);
    [simpl; auto | reflexivity].
Defined.

(* ================================================================== *)
(** * What [extract_pdf_data] returns *)

(** A conversion that raises anywhere in the table ends the loop without a
    record. *)
Lemma run_fields_raises (text : string) (ps : list (string * pattern))
      (f : string) (p : pattern) (g : string) :
  In (f, p) ps -> search p text = Some g -> convert f (strip g) = None ->
  forall data log, fst (run_fields text ps data log) = None.
Proof.
  intros Hin Hs Hc.
  induction ps as [|[f' p'] ps IH]; simpl; intros data log; [contradiction|].
  destruct Hin as [Heq | Hin].
  - inversion Heq; subst. now rewrite Hs, Hc.
  - destruct (search p' text) as [g'|]; [|now apply IH].
    destruct (convert f' (strip g')) as [[v evs]|]; [now apply IH | reflexivity].
Qed.

Lemma extract_fields_run (text : string) :
  exists log0,
    extract_fields text = run_fields text patterns (initial_record text) log0.
Proof.
  unfold extract_fields, initial_record.
  destruct (extract_contractor_name text) as [name|]; [|eauto].
  destruct (String.eqb name ""); eauto.
Qed.

Lemma initial_record_fields (text : string) (f : string) :
  In f (map fst patterns) -> dict_get f (initial_record text) = None.
Proof.
  intros Hin. unfold initial_record.
  destruct (extract_contractor_name text) as [name|]; [|reflexivity].
  destruct (String.eqb name ""); [reflexivity|].
  simpl in Hin.
  repeat (destruct Hin as [<- | Hin]; [reflexivity|]). contradiction.
Qed.

(** No record comes back exactly when the mileage or the work-order count
    was matched and its conversion raised. *)
Lemma extract_fields_none (text : string) :
  fst (extract_fields text) = None <->
  (exists g, search pat_miles text = Some g /\ py_float (strip g) = None)
  \/ (exists g, search pat_work_orders text = Some g
                /\ py_int (strip g) = None).
Proof.
  destruct (extract_fields_run text) as [log0 ->]. split.
  - intros H. apply run_fields_aborts in H as (f & p & g & Hin & Hs & Hc).
    apply convert_raises in Hc as [[-> Hc] | [[-> Hc] | [-> Hc]]];
      pick_pattern Hin; inversion Hin; subst p; clear Hin.
    + apply search_sound in Hs. simpl grp in Hs.
      destruct (amount_converts _ Hs) as [q Hq]. congruence.
    + left. eauto.
    + right. eauto.
  - intros [[g [Hs Hc]] | [g [Hs Hc]]].
    + apply (run_fields_raises text patterns "Feeder Total Miles" pat_miles g);
        [simpl; auto 8 | exact Hs |].
      unfold convert. simpl String.eqb. now rewrite Hc.
    + apply (run_fields_raises text patterns "# of Work Orders"
               pat_work_orders g); [simpl; auto 8 | exact Hs |].
      unfold convert. simpl String.eqb. now rewrite Hc.
Qed.

(** Every field of the table is in the returned record with the value its
    own conversion gives, and is absent when its pattern found nothing. *)
Lemma extract_fields_get (text : string) (data : dict) :
  fst (extract_fields text) = Some data ->
  forall f p, In (f, p) patterns ->
    dict_get f data =
    match search p text with
    | Some g => option_map fst (convert f (strip g))
    | None => None
    end.
Proof.
  destruct (extract_fields_run text) as [log0 ->]. intros H f p Hin.
  destruct (run_fields_get text patterns patterns_nodup _ _ _ H) as [Hget _].
  rewrite (Hget f p Hin).
  destruct (search p text); [reflexivity|].
  apply initial_record_fields. eapply patterns_fields; eauto.
Qed.

(** A date field whose text parses under neither format keeps the text. *)
Lemma convert_unparsed_date (field raw : string) :
  String.eqb field "Total Amount" = false ->
  String.eqb field "Feeder Total Miles" = false ->
  String.eqb field "# of Work Orders" = false ->
  contains "Date" field = true ->
  strptime Fmt_mdy raw = None -> strptime Fmt_mdY raw = None ->
  convert field raw = Some (Str raw, [LogDateError raw]).
Proof.
  intros E1 E2 E3 Hd Hy HY. unfold convert, coerce_date.
  rewrite E1, E2, E3, Hd, Hy, HY.
  now destruct (Nat.eqb (String.length (last_token raw)) 2).
Qed.

(** C5. When a date pattern matches and the captured text parses under
    neither date format, the conversion does not raise: it logs the error and
    gives the captured text itself.  The returned record holds that text
    under the field, every other field of the table is extracted as its own
    conversion dictates, and if no record is returned the cause is a numeric
    conversion, not the date. *)
Theorem unparsed_date_kept_raw (text field raw : string) (p : pattern) :
  In (field, p) patterns ->
  contains "Date" field = true ->
  search p text = Some raw ->
  strptime Fmt_mdy raw = None ->
  strptime Fmt_mdY raw = None ->
  convert field (strip raw) = Some (Str raw, [LogDateError raw])
  /\ (forall data, fst (extract_pdf_data (Page (Some text))) = Some data ->
        dict_get field data = Some (Str raw)
        /\ forall f' p', In (f', p') patterns -> f' <> field ->
             dict_get f' data =
             match search p' text with
             | Some g => option_map fst (convert f' (strip g))
             | None => None
             end)
  /\ (fst (extract_pdf_data (Page (Some text))) = None ->
        (exists g, search pat_miles text = Some g
                   /\ py_float (strip g) = None)
        \/ (exists g, search pat_work_orders text = Some g
                      /\ py_int (strip g) = None)).
Proof.
  intros Hin Hd Hs Hy HY.
  assert (Hraw : strip raw = raw).
  { pose proof Hs as Hl. apply search_sound in Hl.
    pick_pattern Hin; inversion Hin; subst; try discriminate Hd;
      apply date_shape in Hl as [Hns _]; now apply strip_no_space. }
  assert (Hc : convert field (strip raw) = Some (Str raw, [LogDateError raw])).
  { rewrite Hraw.
    pick_pattern Hin; inversion Hin; subst; try discriminate Hd;
      now apply convert_unparsed_date. }
  split; [exact Hc|]. split.
  - simpl extract_pdf_data. intros data Hdata. split.
    + rewrite (extract_fields_get text data Hdata field p Hin), Hs, Hc.
      reflexivity.
    + intros f' p' Hin' _. now apply extract_fields_get.
  - simpl extract_pdf_data. apply extract_fields_none.
Qed.

Lemma unparsed_date_kept_raw_witness :
  In ("Task Order Start Date", pat_start_date) patterns
  /\ contains "Date" "Task Order Start Date" = true
  /\ search pat_start_date "Start Date: 13/45/99" = Some "13/45/99"
  /\ strptime Fmt_mdy "13/45/99" = None
  /\ strptime Fmt_mdY "13/45/99" = None
  /\ fst (extract_pdf_data (Page (Some "Start Date: 13/45/99")))
     = Some [("Task Order Start Date", Str "13/45/99")]
  /\ dict_get "Task Order Start Date"
       [("Task Order Start Date", Str "13/45/99")] = Some (Str "13/45/99").
Proof.
  assert (Hin : In ("Task Order Start Date", pat_start_date) patterns)
    by (simpl; auto 8).
  repeat (split; [first [exact Hin | reflexivity]|]).
  apply (unparsed_date_kept_raw "Start Date: 13/45/99"
           "Task Order Start Date" "13/45/99" pat_start_date Hin
           eq_refl eq_refl eq_refl eq_refl).
  reflexivity.
Defined.

(** C6, as the code has it. No record comes back when the page cannot be
    read or has no text, and, for a decoded text, exactly when the matched
    mileage or the matched work-order count fails its numeric conversion.
    A pattern that does not match and a date that does not parse never
    prevent the record. *)
Theorem extraction_fails_only_on_decoding_or_numeric_conversion :
  fst (extract_pdf_data Unreadable) = None
  /\ fst (extract_pdf_data (Page None)) = None
  /\ forall text,
       fst (extract_pdf_data (Page (Some text))) = None <->
       (exists g, search pat_miles text = Some g
                  /\ py_float (strip g) = None)
       \/ (exists g, search pat_work_orders text = Some g
                     /\ py_int (strip g) = None).
Proof.
  split; [reflexivity|]. split; [reflexivity|].
  intros text. simpl extract_pdf_data. apply extract_fields_none.
Qed.

(** C6, as stated, fails: this text is decoded, its mileage matches
    [[\d.]+] and is not a number, and no record comes back. *)
Lemma decoded_text_without_record :
  search pat_miles "Length: 1.2.3 overhead miles" = Some "1.2.3"
  /\ py_float "1.2.3" = None
  /\ fst (extract_pdf_data (Page (Some "Length: 1.2.3 overhead miles")))
     = None.
Proof. repeat split; reflexivity. Qed.

(** A text in which nothing is found still gives a record, the empty one. *)
Example nothing_found_gives_empty_record :
  fst (extract_pdf_data (Page (Some "no labels here"))) = Some [].
Proof. reflexivity. Qed.

(* ================================================================== *)
(** * Matching does not depend on the case of the text *)

Lemma lower_idem (x : ascii) : lower (lower x) = lower x.
Proof. by_cases_on_char x. Qed.

Lemma upper_lower (x : ascii) : upper (lower x) = upper x.
Proof. by_cases_on_char x. Qed.

Lemma lower_or_upper (x : ascii) : x = lower x \/ x = upper x.
Proof. by_cases_on_char x. Qed.

Lemma is_digit_lower (x : ascii) : is_digit (lower x) = is_digit x.
Proof. by_cases_on_char x. Qed.

Lemma is_space_lower (x : ascii) : is_space (lower x) = is_space x.
Proof. by_cases_on_char x. Qed.

Lemma is_word_lower (x : ascii) : is_word (lower x) = is_word x.
Proof. by_cases_on_char x. Qed.

Lemma in_class_lower (cl : cclass) (x : ascii) :
  in_class cl (lower x) = in_class cl x.
Proof.
  induction cl as [c|lo hi| | | |a IHa b IHb]; simpl.
  - now rewrite lower_idem.
  - rewrite lower_idem, upper_lower.
    assert (H : between (code lo) (code hi) x
                = between (code lo) (code hi) (lower x)
                \/ between (code lo) (code hi) x
                   = between (code lo) (code hi) (upper x)).
    { destruct (lower_or_upper x) as [E | E]; [left | right];
        rewrite <- E; reflexivity. }
    destruct (between (code lo) (code hi) x),
             (between (code lo) (code hi) (lower x)),
             (between (code lo) (code hi) (upper x));
      destruct H; simpl; congruence.
  - apply is_digit_lower.
  - apply is_space_lower.
  - apply is_word_lower.
  - now rewrite IHa, IHb.
Qed.

Lemma length_lowercase (s : string) :
  String.length (lowercase s) = String.length s.
Proof. induction s as [|c s IH]; simpl; [reflexivity | now rewrite IH]. Qed.

Lemma substring_lowercase (s : string) :
  forall n m, substring n m (lowercase s) = lowercase (substring n m s).
Proof.
  induction s as [|c s IH]; intros [|n] [|m]; simpl; try reflexivity.
  - now rewrite IH.
  - apply IH.
  - apply IH.
Qed.

Lemma consumed_lowercase (s s' : string) :
  consumed (lowercase s) (lowercase s') = lowercase (consumed s s').
Proof.
  unfold consumed. rewrite !length_lowercase. apply substring_lowercase.
Qed.

Section MatcherCase.
Variables (A B : Type) (f : A -> B).

Lemma star_k_lower (cl : cclass) (k : string -> option A)
      (k' : string -> option B) :
  agree f k k' ->
  forall s, star_k cl (lowercase s) k' = option_map f (star_k cl s k).
Proof.
  intros Hk. induction s as [|x s IH]; simpl.
  - apply (Hk "").
  - rewrite in_class_lower. destruct (in_class cl x).
    + rewrite IH. destruct (star_k cl s k); [reflexivity|].
      apply (Hk (String x s)).
    + apply (Hk (String x s)).
Qed.

Lemma matchk_lower (r : regex) :
  forall (k : string -> option A) (k' : string -> option B),
    agree f k k' ->
    forall s, matchk r (lowercase s) k' = option_map f (matchk r s k).
Proof.
  induction r as [|cl|r1 IH1 r2 IH2|r1 IH1 r2 IH2|r IH|cl];
    simpl; intros k k' Hk s.
  - apply Hk.
  - destruct s as [|x s]; simpl; [reflexivity|].
    rewrite in_class_lower. destruct (in_class cl x); [apply Hk | reflexivity].
  - apply IH1. intros s'. now apply IH2.
  - rewrite (IH1 k k' Hk). destruct (matchk r1 s k); [reflexivity|].
    now apply IH2.
  - rewrite (IH k k' Hk). destruct (matchk r s k); [reflexivity|].
    apply Hk.
  - now apply star_k_lower.
Qed.

End MatcherCase.

Lemma match_here_lower (p : pattern) (s : string) :
  match_here p (lowercase s) = option_map lowercase (match_here p s).
Proof.
  unfold match_here, capture.
  apply matchk_lower. intros s1.
  apply matchk_lower. intros s2.
  apply matchk_lower. intros s3. simpl.
  now rewrite consumed_lowercase.
Qed.

Lemma search_lower (p : pattern) (s : string) :
  search p (lowercase s) = option_map lowercase (search p s).
Proof.
  induction s as [|x s IH].
  - simpl. change "" with (lowercase "") at 1. rewrite match_here_lower.
    now destruct (match_here p "").
  - simpl search. change (String (lower x) (lowercase s))
      with (lowercase (String x s)).
    rewrite match_here_lower.
    destruct (match_here p (String x s)); [reflexivity | exact IH].
Qed.

Lemma lstrip_lower (s : string) : lstrip (lowercase s) = lowercase (lstrip s).
Proof.
  induction s as [|c s IH]; simpl; [reflexivity|].
  rewrite is_space_lower. now destruct (is_space c).
Qed.

Lemma rstrip_lower (s : string) : rstrip (lowercase s) = lowercase (rstrip s).
Proof.
  induction s as [|c s IH]; simpl; [reflexivity|].
  rewrite IH, is_space_lower.
  destruct (rstrip s); simpl; [now destruct (is_space c) | reflexivity].
Qed.

Lemma strip_lower (s : string) : strip (lowercase s) = lowercase (strip s).
Proof. unfold strip. now rewrite lstrip_lower, rstrip_lower. Qed.

Lemma first_match_lower (ps : list pattern) (text : string) :
  first_match ps (lowercase text)
  = option_map lowercase (first_match ps text).
Proof.
  induction ps as [|p ps IH]; simpl; [reflexivity|].
  rewrite search_lower. destruct (search p text); simpl.
  - now rewrite strip_lower.
  - exact IH.
Qed.

(** The loop of [extract_contractor_name] returns the match of the first
    pattern, in list order, that is found. *)
Lemma first_match_first (text : string) (ps : list pattern) :
  forall i p g,
    nth_error ps i = Some p -> search p text = Some g ->
    (forall j q, (j < i)%nat -> nth_error ps j = Some q ->
                 search q text = None) ->
    first_match ps text = Some (strip g).
Proof.
  induction ps as [|p0 ps IH]; intros [|i] p g Hnth Hs Hbefore;
    simpl in *; try discriminate.
  - inversion Hnth; subst. now rewrite Hs.
  - rewrite (Hbefore 0%nat p0) by (simpl; auto; lia).
    apply (IH i p g Hnth Hs). intros j q Hj Hq.
    apply (Hbefore (S j) q); [lia | exact Hq].
Qed.

Lemma first_match_none (text : string) (ps : list pattern) :
  (forall p, In p ps -> search p text = None) -> first_match ps text = None.
Proof.
  induction ps as [|p ps IH]; simpl; intros H; [reflexivity|].
  rewrite (H p) by auto. apply IH. auto.
Qed.

Lemma code_inj (a b : ascii) : code a = code b -> a = b.
Proof.
  unfold code. intros H.
  rewrite <- (ascii_N_embedding a), <- (ascii_N_embedding b). now rewrite H.
Qed.

(** A character that matches a literal is a blank only if the literal is. *)
Lemma lit_not_space (c x : ascii) :
  in_class (CLit c) x = true -> is_space c = false -> not_space x = true.
Proof.
  cbn [in_class]. intros H Hc. apply N.eqb_eq in H. apply code_inj in H.
  unfold not_space. now rewrite <- is_space_lower, H, is_space_lower, Hc.
Qed.

Lemma last_char_or_app (w : string) (b : ascii) (t : string) :
  forall d, last_char_or d (w ++ String b t) = last_char_or b t.
Proof.
  induction w as [|c w IH]; intros d; cbn [append last_char_or];
    [reflexivity | apply IH].
Qed.

Lemma rstrip_last (s : string) :
  forall d, s <> "" -> not_space (last_char_or d s) = true -> rstrip s = s.
Proof.
  induction s as [|c s IH]; intros d Hne H; [congruence|].
  cbn [last_char_or] in H. cbn [rstrip].
  destruct s as [|c' s'].
  - cbn [last_char_or] in H. cbn [rstrip]. unfold not_space in H.
    now destruct (is_space c).
  - rewrite (IH c) by (try discriminate; exact H). reflexivity.
Qed.

(** [strip] leaves a text alone when it neither starts nor ends with a
    blank. *)
Lemma strip_first_last (c : ascii) (s : string) :
  not_space c = true -> not_space (last_char_or c s) = true ->
  strip (String c s) = String c s.
Proof.
  intros Hc Hl. unfold strip. rewrite lstrip_id by exact Hc.
  apply (rstrip_last (String c s) c); [discriminate | exact Hl].
Qed.

Ltac solve_not_space :=
  eapply lit_not_space; [eassumption | reflexivity].

(** What a contractor pattern matches starts with a letter and ends with a
    letter or a dot: [strip] does not change it. *)
Lemma contractor_match_unstripped (p : pattern) (g : string) :
  In p contractor_patterns -> lang (grp p) g -> strip g = g.
Proof.
  intros Hin H. simpl in Hin.
  destruct Hin as [<- | [<- | [<- | []]]]; cbn [grp seqs lit] in H;
    inv_lang; cbn [append];
    (apply strip_first_last; [solve_not_space|]);
    cbn [last_char_or];
    repeat rewrite last_char_or_app; cbn [last_char_or];
    solve_not_space.
Qed.

(** C8, as the code has it. Contractor resolution tries the patterns in list
    order and returns the text matched by the first one that is found, as the
    document spells it: [strip] changes nothing in it and no name is
    normalized.  Matching does not depend on the case of the text.  When no
    pattern is found the result is [None], the log of the extraction carries
    the warning "Could not find contractor name in PDF" right after the text,
    and a returned record has no 'Contractor' field. *)
Theorem contractor_resolution (text : string) :
  (forall i p g,
      nth_error contractor_patterns i = Some p ->
      search p text = Some g ->
      (forall j q, (j < i)%nat -> nth_error contractor_patterns j = Some q ->
                   search q text = None) ->
      extract_contractor_name text = Some g
      /\ strip g = g
      /\ lang (grp p) g)
  /\ extract_contractor_name (lowercase text)
     = option_map lowercase (extract_contractor_name text)
  /\ ((forall p, In p contractor_patterns -> search p text = None) ->
      extract_contractor_name text = None
      /\ (exists rest,
            snd (extract_pdf_data (Page (Some text)))
            = LogText (Some text) :: LogNoContractor :: rest)
      /\ level_of LogNoContractor = WARNING
      /\ forall data,
           fst (extract_pdf_data (Page (Some text))) = Some data ->
           dict_get "Contractor" data = None).
Proof.
  split; [|split].
  - intros i p g Hnth Hs Hbefore.
    assert (Hl : lang (grp p) g) by now apply search_sound in Hs.
    assert (Hg : strip g = g).
    { apply (contractor_match_unstripped p g); [|exact Hl].
      eapply nth_error_In; eauto. }
    split; [|split; [exact Hg | exact Hl]].
    rewrite <- Hg.
    now apply (first_match_first text contractor_patterns i p g).
  - apply first_match_lower.
  - intros Hnone.
    assert (E : extract_contractor_name text = None)
      by now apply first_match_none.
    split; [exact E|]. simpl extract_pdf_data. unfold extract_fields.
    rewrite E. split; [|split; [reflexivity|]].
    + destruct (run_fields_log text patterns []
                  [LogText (Some text); LogNoContractor]) as [rest ->].
      now exists rest.
    + intros data Hdata.
      destruct (run_fields_get text patterns patterns_nodup _ _ _ Hdata)
        as [_ Hout].
      rewrite Hout; [reflexivity|].
      simpl. intuition discriminate.
Qed.

Lemma contractor_resolution_witness :
  extract_contractor_name "Crew: XPERTS LLC and Wright Tree Service of Puerto Rico, LLC"
  = Some "XPERTS LLC"
  /\ extract_contractor_name "no contractor named" = None.
Proof.
  split.
  - apply (proj1 (contractor_resolution
             "Crew: XPERTS LLC and Wright Tree Service of Puerto Rico, LLC")
             0%nat _ "XPERTS LLC" eq_refl eq_refl).
    intros j q Hj. inversion Hj.
  - apply (proj2 (proj2 (contractor_resolution "no contractor named"))).
    intros p Hp. simpl in Hp.
    repeat (destruct Hp as [<- | Hp]; [reflexivity|]). contradiction.
Defined.


(** C8, as stated, fails: the first pattern is found in both texts and the
    names returned differ, each spelled as its document spells it; the
    pattern has no normalized name that the code would return. *)
Lemma contractor_name_follows_document :
  (exists p, nth_error contractor_patterns 0 = Some p
             /\ search p "Crew: XPERTS LLC" = Some "XPERTS LLC"
             /\ search p "Crew: Xpert's  llc" = None
             /\ search p "Crew: xpert's llc" = Some "xpert's llc")
  /\ extract_contractor_name "Crew: XPERTS LLC" = Some "XPERTS LLC"
  /\ extract_contractor_name "Crew: xpert's llc" = Some "xpert's llc"
  /\ extract_contractor_name "Crew: XPERTS LLC"
     <> extract_contractor_name "Crew: xpert's llc"
  /\ extract_contractor_name "Ceres Environmental Services,   INC"
     = Some "Ceres Environmental Services,   INC".
Proof.
  split; [eexists; split; [reflexivity|]; repeat split; reflexivity|].
  split; [reflexivity|]. split; [reflexivity|].
  split; [|reflexivity].
  intros H. vm_compute in H. discriminate H.
Qed.

(* ================================================================== *)
(** * The date coercion on the two written forms of a date *)

Lemma in_zrange (lo z : Z) (n : nat) :
  lo <= z < lo + Z.of_nat n -> In z (zrange lo n).
Proof.
  intros H. unfold zrange. apply in_map_iff.
  exists (Z.to_nat (z - lo)). split; [lia|].
  apply in_seq. lia.
Qed.

Lemma zrange_cases (P : Z -> Prop) (lo : Z) (n : nat) :
  Forall P (zrange lo n) -> forall z, lo <= z < lo + Z.of_nat n -> P z.
Proof.
  intros H z Hz. rewrite Forall_forall in H. apply H. now apply in_zrange.
Qed.

Ltac each_case tac :=
  repeat (apply Forall_cons; [cbv beta; tac|]); apply Forall_nil.

Lemma consumed2 (a b : ascii) (t : string) :
  consumed (String a (String b t)) t = String a (String b "").
Proof. exact (consumed_app (String a (String b "")) t). Qed.

Lemma consumed4 (a b c d : ascii) (t : string) :
  consumed (String a (String b (String c (String d t)))) t
  = String a (String b (String c (String d ""))).
Proof.
  exact (consumed_app (String a (String b (String c (String d "")))) t).
Qed.

Section Groups.
Variable A : Type.

(** [%m] on a two-digit month takes both digits. *)
Lemma capture_month (m : Z) :
  1 <= m <= 12 ->
  forall (t : string) (k : string -> string -> option A) (r : A),
    k (pad2 m) t = Some r -> capture re_m (pad2 m ++ t) k = Some r.
Proof.
  intros Hm. pattern m. apply (zrange_cases _ 1 12); [|lia].
  vm_compute zrange.
  each_case ltac:(intros t k r Hk; unfold capture; cbn -[consumed];
                  rewrite consumed2; vm_compute in Hk;
                  now rewrite Hk).
Qed.

(** [%d] on a two-digit day takes both digits. *)
Lemma capture_day (dd : Z) :
  1 <= dd <= 31 ->
  forall (t : string) (k : string -> string -> option A) (r : A),
    k (pad2 dd) t = Some r -> capture re_d (pad2 dd ++ t) k = Some r.
Proof.
  intros Hd. pattern dd. apply (zrange_cases _ 1 31); [|lia].
  vm_compute zrange.
  each_case ltac:(intros t k r Hk; unfold capture; cbn -[consumed];
                  rewrite consumed2; vm_compute in Hk;
                  now rewrite Hk).
Qed.

(** [%y] takes two digits and [%Y] four. *)
Lemma capture_year2 (a b : ascii) (t : string)
      (k : string -> string -> option A) :
  is_digit a = true -> is_digit b = true ->
  capture re_y (String a (String b t)) k = k (String a (String b "")) t.
Proof.
  intros Ha Hb. unfold capture, re_y. cbn -[consumed].
  now rewrite Ha, Hb, consumed2.
Qed.

Lemma capture_year4 (a b c d : ascii) (t : string)
      (k : string -> string -> option A) :
  is_digit a = true -> is_digit b = true ->
  is_digit c = true -> is_digit d = true ->
  capture re_Y (String a (String b (String c (String d t)))) k
  = k (String a (String b (String c (String d "")))) t.
Proof.
  intros Ha Hb Hc Hd. unfold capture, re_Y. cbn -[consumed].
  now rewrite Ha, Hb, Hc, Hd, consumed4.
Qed.

End Groups.

Lemma digit_char_is_digit (n : Z) : 0 <= n <= 9 -> is_digit (digit_char n) = true.
Proof.
  intros H. pattern n. apply (zrange_cases _ 0 10); [|lia].
  vm_compute zrange. each_case ltac:(reflexivity).
Qed.

Lemma pad2_digits (n : Z) :
  exists a b, pad2 n = String a (String b "")
              /\ is_digit a = true /\ is_digit b = true.
Proof.
  unfold pad2. do 2 eexists. split; [reflexivity|].
  split; apply digit_char_is_digit.
  - pose proof (Z.mod_pos_bound (n / 10) 10). lia.
  - pose proof (Z.mod_pos_bound n 10). lia.
Qed.

Lemma pad4_digits (n : Z) :
  exists a b c d,
    pad4 n = String a (String b (String c (String d "")))
    /\ is_digit a = true /\ is_digit b = true
    /\ is_digit c = true /\ is_digit d = true.
Proof.
  unfold pad4, pad2. do 4 eexists. split; [reflexivity|].
  repeat split; apply digit_char_is_digit.
  - pose proof (Z.mod_pos_bound (n / 1000) 10). lia.
  - pose proof (Z.mod_pos_bound (n / 100) 10). lia.
  - pose proof (Z.mod_pos_bound (n / 10) 10). lia.
  - pose proof (Z.mod_pos_bound n 10). lia.
Qed.

(** The groups [_strptime] finds in a date written on two digits for the
    month and the day. *)
Lemma groups_of_written_date (f : format) (m dd : Z) (y : string) :
  1 <= m <= 12 -> 1 <= dd <= 31 ->
  (forall (k : string -> string -> option (string * string * string * string)),
      capture (re_year f) y k = k y "") ->
  strptime_groups f (pad2 m ++ "/" ++ pad2 dd ++ "/" ++ y)
  = Some (pad2 m, pad2 dd, y, "").
Proof.
  intros Hm Hd Hy. unfold strptime_groups.
  apply capture_month; [exact Hm|].
  cbn [append matchk in_class].
  change (code (lower "/") =? code (lower "/"))%N with true. cbv iota.
  apply capture_day; [exact Hd|].
  cbn [append matchk in_class].
  change (code (lower "/") =? code (lower "/"))%N with true. cbv iota.
  apply Hy.
Qed.


Lemma py_int_pad2 (n : Z) : 0 <= n <= 99 -> py_int (pad2 n) = Some n.
Proof.
  intros H. pattern n. apply (zrange_cases _ 0 100); [|lia].
  vm_compute zrange. each_case ltac:(reflexivity).
Qed.

Lemma py_int_pad4_window (y : Z) :
  1969 <= y <= 2068 -> py_int (pad4 y) = Some y.
Proof.
  intros H. pattern y. apply (zrange_cases _ 1969 100); [|lia].
  vm_compute zrange. each_case ltac:(reflexivity).
Qed.

Lemma expand_year_window (y : Z) :
  1969 <= y <= 2068 -> expand_year Fmt_mdy (y mod 100) = y.
Proof.
  intros H. unfold expand_year.
  pose proof (Z.div_mod y 100 ltac:(lia)) as E.
  pose proof (Z.mod_pos_bound y 100 ltac:(lia)) as B.
  destruct (Z.leb_spec (y mod 100) 68); lia.
Qed.

Lemma digit_not_slash (c : ascii) :
  is_digit c = true -> (code c =? 47)%N = false.
Proof. by_cases_on_char c. Qed.

Lemma last_piece_digits (y : string) :
  all_chars is_digit y = true ->
  forall cur, last_piece cur y = cur ++ y.
Proof.
  induction y as [|c y IH]; simpl; intros H cur.
  - now rewrite app_nil_r_s.
  - apply andb_true_iff in H as [Hc Hy].
    rewrite (digit_not_slash _ Hc), (IH Hy), app_assoc_s. reflexivity.
Qed.

Lemma last_piece_after_slash (pre y : string) :
  forall cur, last_piece cur (pre ++ String "/" y) = last_piece "" y.
Proof.
  induction pre as [|c pre IH]; simpl; intros cur; [reflexivity|].
  destruct (code c =? 47)%N; apply IH.
Qed.

Lemma last_token_written (pre y : string) :
  all_chars is_digit y = true -> last_token (pre ++ String "/" y) = y.
Proof.
  intros H. unfold last_token.
  rewrite last_piece_after_slash. now rewrite last_piece_digits.
Qed.

Lemma days_in_month_le (y m : Z) : days_in_month y m <= 31.
Proof.
  unfold days_in_month.
  destruct (m =? 2); [destruct (is_leap y); lia|].
  destruct ((m =? 4) || (m =? 6) || (m =? 9) || (m =? 11)); lia.
Qed.

Lemma valid_date_bounds (d : date) :
  valid_date d = true -> (1 <= month d <= 12) /\ (1 <= day d <= 31).
Proof.
  unfold valid_date. intros Hv.
  repeat (apply andb_true_iff in Hv as [Hv ?]).
  pose proof (days_in_month_le (year d) (month d)). lia.
Qed.

(** The coercion taken alone, on the two written forms of a date. For
    every valid calendar date whose year is in
    1969..2068, the date coercion maps the two-digit-year form and the
    four-digit-year form to the same canonical MM/DD/YYYY text.  The token
    after the last slash has length 2 in the first form, which is then read
    with the two-digit-year format, and length 4 in the second, which is
    read with the four-digit-year format. *)
Theorem date_forms_agree_in_window (d : date) :
  valid_date d = true ->
  1969 <= year d <= 2068 ->
  String.length (last_token (two_digit_form d)) = 2%nat
  /\ strptime Fmt_mdy (two_digit_form d) = Some d
  /\ coerce_date (two_digit_form d) = (strftime d, false)
  /\ String.length (last_token (strftime d)) = 4%nat
  /\ strptime Fmt_mdY (strftime d) = Some d
  /\ coerce_date (strftime d) = (strftime d, false).
Proof.
  intros Hv Hy.
  destruct (valid_date_bounds d Hv) as [Hm Hd].
  destruct d as [y m dd]. simpl in Hy, Hm, Hd.
  assert (Hyy : 0 <= y mod 100 <= 99)
    by (pose proof (Z.mod_pos_bound y 100); lia).
  destruct (pad2_digits (y mod 100)) as (a & b & E2 & Ha & Hb).
  destruct (pad4_digits y) as (a4 & b4 & c4 & d4' & E4 & Ha4 & Hb4 & Hc4 & Hd4).
  assert (T2 : last_token (two_digit_form (mkDate y m dd)) = pad2 (y mod 100)).
  { unfold two_digit_form. simpl year; simpl month; simpl day.
    rewrite <- (app_assoc_s (pad2 m) "/" (pad2 dd ++ "/" ++ pad2 (y mod 100))).
    rewrite <- (app_assoc_s (pad2 m ++ "/") (pad2 dd) ("/" ++ pad2 (y mod 100))).
    apply last_token_written. rewrite E2. simpl. now rewrite Ha, Hb. }
  assert (T4 : last_token (strftime (mkDate y m dd)) = pad4 y).
  { unfold strftime. simpl year; simpl month; simpl day.
    rewrite <- (app_assoc_s (pad2 m) "/" (pad2 dd ++ "/" ++ pad4 y)).
    rewrite <- (app_assoc_s (pad2 m ++ "/") (pad2 dd) ("/" ++ pad4 y)).
    apply last_token_written. rewrite E4. simpl.
    now rewrite Ha4, Hb4, Hc4, Hd4. }
  assert (P2 : strptime Fmt_mdy (two_digit_form (mkDate y m dd))
               = Some (mkDate y m dd)).
  { unfold strptime, two_digit_form. simpl year; simpl month; simpl day.
    rewrite (groups_of_written_date Fmt_mdy m dd (pad2 (y mod 100)) Hm Hd).
    - rewrite !py_int_pad2 by lia. cbv zeta.
      rewrite (expand_year_window y Hy). now rewrite Hv.
    - intros k. rewrite E2. now apply capture_year2. }
  assert (P4 : strptime Fmt_mdY (strftime (mkDate y m dd))
               = Some (mkDate y m dd)).
  { unfold strptime, strftime. simpl year; simpl month; simpl day.
    rewrite (groups_of_written_date Fmt_mdY m dd (pad4 y) Hm Hd).
    - rewrite !py_int_pad2 by lia. rewrite (py_int_pad4_window y Hy).
      cbv zeta. simpl expand_year. now rewrite Hv.
    - intros k. rewrite E4. now apply capture_year4. }
  assert (L2 : String.length (pad2 (y mod 100)) = 2%nat) by reflexivity.
  assert (L4 : String.length (pad4 y) = 4%nat) by reflexivity.
  repeat split.
  - now rewrite T2.
  - exact P2.
  - unfold coerce_date. now rewrite T2, L2, P2.
  - now rewrite T4.
  - exact P4.
  - unfold coerce_date. now rewrite T4, L4, P4.
Qed.

Lemma date_forms_agree_in_window_witness :
  valid_date (mkDate 2024 1 5) = true
  /\ 1969 <= 2024 <= 2068
  /\ coerce_date "01/05/24" = ("01/05/2024", false)
  /\ coerce_date "01/05/2024" = ("01/05/2024", false).
Proof.
  split; [reflexivity|]. split; [lia|].
  pose proof (date_forms_agree_in_window (mkDate 2024 1 5) eq_refl
                ltac:(simpl; lia)) as H.
  split; [exact (proj1 (proj2 (proj2 H)))
         | exact (proj2 (proj2 (proj2 (proj2 (proj2 H)))))].
Defined.

(** C4, at an input where the code fails it. The patterns read a
    four-digit year only up to its second digit: [\d{2}] comes first in
    [(?:\d{2}|\d{4})] and nothing follows the group.  The four-digit form
    of 5 January 2024 is captured as [01/05/20], read with the two-digit
    format and stored as 01/05/2020, where its two-digit form is stored as
    01/05/2024. *)
Example four_digit_year_is_cut :
  search pat_start_date "Start Date: 01/05/2024" = Some "01/05/20"
  /\ fst (extract_pdf_data (Page (Some "Start Date: 01/05/2024")))
     = Some [("Task Order Start Date", Str "01/05/2020")]
  /\ fst (extract_pdf_data (Page (Some "Start Date: 01/05/24")))
     = Some [("Task Order Start Date", Str "01/05/2024")].
Proof. repeat split; reflexivity. Qed.

(* ================================================================== *)
(** * Facts about tables *)

Lemma col_index_lt (c : string) (cols : list string) (i : nat) :
  col_index c cols = Some i -> (i < List.length cols)%nat.
Proof.
  revert i. induction cols as [|c' cols IH]; simpl; intros i H; [discriminate|].
  destruct (String.eqb c c').
  - inversion H. lia.
  - destruct (col_index c cols) as [i'|]; [|discriminate].
    inversion H. specialize (IH i' eq_refl). lia.
Qed.

Lemma col_index_nth (c : string) (cols : list string) (i : nat) :
  col_index c cols = Some i -> nth_error cols i = Some c.
Proof.
  revert i. induction cols as [|c' cols IH]; simpl; intros i H; [discriminate|].
  destruct (String.eqb_spec c c') as [-> | _].
  - now inversion H.
  - destruct (col_index c cols) as [i'|]; [|discriminate].
    inversion H. simpl. now apply IH.
Qed.

Lemma col_index_inj (c c' : string) (cols : list string) (i : nat) :
  col_index c cols = Some i -> col_index c' cols = Some i -> c = c'.
Proof.
  intros H H'. apply col_index_nth in H, H'. congruence.
Qed.

Lemma col_index_app (c : string) (cols more : list string) (i : nat) :
  col_index c cols = Some i -> col_index c (cols ++ more) = Some i.
Proof.
  revert i. induction cols as [|c' cols IH]; simpl; intros i H; [discriminate|].
  destruct (String.eqb c c'); [exact H|].
  destruct (col_index c cols) as [i'|]; [|discriminate].
  now rewrite (IH i' eq_refl).
Qed.

Lemma col_index_some (c : string) (cols : list string) :
  In c cols -> exists i, col_index c cols = Some i.
Proof.
  induction cols as [|c' cols IH]; simpl; intros H; [contradiction|].
  destruct (String.eqb_spec c c') as [-> | Hne]; [now exists 0%nat|].
  destruct H as [-> | H]; [congruence|].
  destruct (IH H) as [i ->]. now exists (S i).
Qed.

(** A row built from a record holds, under each label, what the record
    holds under that key. *)
Lemma cell_of_dict (data : dict) (c : string) :
  cell (map fst data) (map snd data) c
  = match dict_get c data with Some v => v | None => NaN end.
Proof.
  unfold cell. induction data as [|[k v] data IH]; simpl; [reflexivity|].
  destruct (String.eqb c k); [reflexivity|].
  destruct (col_index c (map fst data)) as [i|]; simpl; exact IH.
Qed.

Lemma nth_reindex (cols cols' : list string) (row : list value)
      (c : string) (i : nat) :
  col_index c cols' = Some i ->
  nth i (reindex cols cols' row) NaN = cell cols row c.
Proof.
  intros H. unfold reindex.
  pose proof (col_index_nth _ _ _ H) as Hn.
  pose proof (col_index_lt _ _ _ H) as Hl.
  rewrite (nth_indep _ NaN (cell cols row "")) by now rewrite length_map.
  rewrite map_nth. f_equal.
  apply nth_error_nth with (d := "") in Hn. exact Hn.
Qed.

Lemma length_reindex (cols cols' : list string) (row : list value) :
  List.length (reindex cols cols' row) = List.length cols'.
Proof. apply length_map. Qed.

(** Laying a well-formed row out for its own columns changes nothing. *)
Lemma reindex_same (cols : list string) (row : list value) :
  NoDup cols -> List.length row = List.length cols ->
  reindex cols cols row = row.
Proof.
  unfold reindex. revert row.
  induction cols as [|c cols IH]; intros [|v row] Hnd Hlen;
    simpl in *; try discriminate; [reflexivity|].
  inversion Hnd as [|? ? Hnotin Hnd']; subst.
  unfold cell at 1. simpl. rewrite String.eqb_refl. simpl. f_equal.
  rewrite <- (IH row Hnd') at 2 by lia.
  apply map_ext_in. intros c' Hin. unfold cell. simpl.
  destruct (String.eqb_spec c' c) as [-> | _]; [contradiction|].
  now destruct (col_index c' cols).
Qed.

Lemma filter_new_columns_nil (cols keys : list string) :
  incl keys cols ->
  filter (fun c => negb (has_col cols c)) keys = [].
Proof.
  induction keys as [|k keys IH]; simpl; intros H; [reflexivity|].
  destruct (col_index_some k cols (H k (or_introl eq_refl))) as [i Hi].
  unfold has_col at 1. rewrite Hi. simpl.
  apply IH. intros x Hx. apply H. now right.
Qed.

Lemma nth_set_nth_other (i j : nat) (v : value) (row : list value) :
  i <> j -> nth j (set_nth i v row) NaN = nth j row NaN.
Proof.
  revert j row. induction i as [|i IH]; intros [|j] [|x row] H;
    simpl; try reflexivity; try congruence.
  apply IH. congruence.
Qed.

Lemma nth_set_nth_same (i : nat) (v : value) (row : list value) :
  (i < List.length row)%nat -> nth i (set_nth i v row) NaN = v.
Proof.
  revert row. induction i as [|i IH]; intros [|x row] H; simpl in *;
    try lia; [reflexivity|].
  apply IH. lia.
Qed.

Lemma set_nth_same_value (i : nat) (row : list value) :
  set_nth i (nth i row NaN) row = row.
Proof.
  revert row. induction i as [|i IH]; intros [|x row]; simpl;
    try reflexivity.
  now rewrite IH.
Qed.

Lemma length_set_nth (i : nat) (v : value) (row : list value) :
  List.length (set_nth i v row) = List.length row.
Proof.
  revert row. induction i as [|i IH]; intros [|x row]; simpl;
    try reflexivity.
  now rewrite IH.
Qed.

Section MergerFacts.
Variable pd : Pandas.

Lemma to_datetime_cell_date (v v' : value) :
  to_datetime_cell pd v = Some v' -> is_date_or_missing v'.
Proof.
  destruct v as [|s|q|t]; simpl.
  - intros H; inversion H; exact I.
  - destruct (parse_datetime pd s); intros H; inversion H; exact I.
  - destruct (num_to_datetime pd q); intros H; inversion H; exact I.
  - intros H; inversion H; exact I.
Qed.

Lemma to_datetime_cell_fixed (v : value) :
  is_date_or_missing v -> to_datetime_cell pd v = Some v.
Proof. destruct v; simpl; intros H; try contradiction; reflexivity. Qed.

(** When [to_datetime] returns, assigning the column back is [reparse] on
    every row. *)
Lemma set_cells_reparse (i : nat) (rs : list (list value)) :
  forall dates,
    to_datetime pd (map (fun r => nth i r NaN) rs) = Some dates ->
    set_cells i dates rs = map (reparse pd i) rs
    /\ Forall (fun r => exists v, to_datetime_cell pd (nth i r NaN) = Some v) rs.
Proof.
  induction rs as [|r rs IH]; simpl; intros dates H.
  - inversion H; subst. split; [reflexivity | constructor].
  - destruct (to_datetime_cell pd (nth i r NaN)) as [v|] eqn:Ev; [|discriminate].
    destruct (to_datetime pd (map (fun r => nth i r NaN) rs)) as [ds|] eqn:Ed;
      [|discriminate].
    inversion H; subst. destruct (IH ds eq_refl) as [IH1 IH2].
    simpl. unfold reparse at 1. rewrite Ev, IH1. split; [reflexivity|].
    constructor; [now exists v | exact IH2].
Qed.

Lemma reparse_other (i j : nat) (r : list value) :
  j <> i -> nth j (reparse pd i r) NaN = nth j r NaN.
Proof.
  intros H. unfold reparse.
  destruct (to_datetime_cell pd (nth i r NaN)); [|reflexivity].
  apply nth_set_nth_other. congruence.
Qed.

Lemma reparse_fixed (i : nat) (r : list value) :
  is_date_or_missing (nth i r NaN) -> reparse pd i r = r.
Proof.
  intros H. unfold reparse. rewrite (to_datetime_cell_fixed _ H).
  apply set_nth_same_value.
Qed.

Lemma reparse_date (i : nat) (r : list value) :
  (i < List.length r)%nat ->
  (exists v, to_datetime_cell pd (nth i r NaN) = Some v) ->
  is_date_or_missing (nth i (reparse pd i r) NaN).
Proof.
  intros Hlen [v Hv]. unfold reparse. rewrite Hv.
  rewrite nth_set_nth_same by exact Hlen.
  eapply to_datetime_cell_date; eauto.
Qed.

Lemma length_reparse (i : nat) (r : list value) :
  List.length (reparse pd i r) = List.length r.
Proof.
  unfold reparse. destruct (to_datetime_cell pd (nth i r NaN));
    [apply length_set_nth | reflexivity].
Qed.

(** Sorting reorders the rows and nothing else. *)
Lemma insert_desc_perm (i : nat) (r : list value) (rs : list (list value)) :
  Permutation (insert_desc i r rs) (r :: rs).
Proof.
  induction rs as [|x rs IH]; simpl; [reflexivity|].
  destruct (desc_before (sort_key i r) (sort_key i x)); [reflexivity|].
  rewrite IH. apply perm_swap.
Qed.

Lemma sort_desc_perm (i : nat) (rs : list (list value)) :
  Permutation (sort_desc i rs) rs.
Proof.
  induction rs as [|r rs IH]; simpl; [reflexivity|].
  rewrite insert_desc_perm. now constructor.
Qed.

Lemma desc_before_trans (x y z : option Z) :
  desc_before x y = true -> desc_before y z = true -> desc_before x z = true.
Proof.
  destruct x, y, z; simpl; intros H1 H2; try reflexivity; try discriminate.
  apply Z.leb_le in H1, H2. apply Z.leb_le. lia.
Qed.

Lemma desc_before_total (x y : option Z) :
  desc_before x y = false -> desc_before y x = true.
Proof.
  destruct x, y; simpl; intros H; try reflexivity; try discriminate.
  apply Z.leb_gt in H. apply Z.leb_le. lia.
Qed.

Lemma insert_desc_sorted (i : nat) (r : list value) (rs : list (list value)) :
  StronglySorted (row_before i) rs ->
  StronglySorted (row_before i) (insert_desc i r rs).
Proof.
  induction rs as [|x rs IH]; simpl; intros H.
  - repeat constructor.
  - inversion H as [|? ? Hs Hall]; subst.
    destruct (desc_before (sort_key i r) (sort_key i x)) eqn:E.
    + constructor; [exact H|]. constructor; [exact E|].
      eapply Forall_impl; [|exact Hall]. intros y Hy.
      unfold row_before in *. eapply desc_before_trans; eauto.
    + constructor; [now apply IH|].
      apply (Permutation_Forall (Permutation_sym (insert_desc_perm i r rs))).
      constructor; [|exact Hall].
      now apply desc_before_total.
Qed.

Lemma sort_desc_sorted (i : nat) (rs : list (list value)) :
  StronglySorted (row_before i) (sort_desc i rs).
Proof.
  induction rs as [|r rs IH]; simpl; [constructor|].
  now apply insert_desc_sorted.
Qed.

(** On cells that are dates or missing, the order of the sort is
    [not_before]. *)
Lemma row_before_not_before (i : nat) (r1 r2 : list value) :
  is_date_or_missing (nth i r1 NaN) -> is_date_or_missing (nth i r2 NaN) ->
  row_before i r1 r2 -> not_before (nth i r1 NaN) (nth i r2 NaN).
Proof.
  unfold row_before, sort_key, not_before.
  destruct (nth i r1 NaN), (nth i r2 NaN); simpl; intros H1 H2 H;
    try contradiction; try discriminate; try exact I.
  now apply Z.leb_le.
Qed.

(** What a merge that writes has done, step by step. *)
Lemma merge_written (data : dict) (df df' : DataFrame) :
  merge pd data df = Written df' ->
  exists i j dates,
    truthy (dict_get "Task Order #" data) = true
    /\ col_index "Task Order #" (columns df) = Some i
    /\ existsb (eq_task_order pd (dict_get "Task Order #" data))
         (map (fun r => nth i r NaN) (rows df)) = false
    /\ col_index "Task Order Start Date"
         (columns (concat df (frame_of_dict data))) = Some j
    /\ to_datetime pd
         (map (fun r => nth j r NaN) (rows (concat df (frame_of_dict data))))
       = Some dates
    /\ df' = mkFrame (columns (concat df (frame_of_dict data)))
               (sort_desc j
                  (set_cells j dates (rows (concat df (frame_of_dict data))))).
Proof.
  unfold merge. intros H.
  destruct (truthy (dict_get "Task Order #" data)) eqn:Et; [|discriminate].
  unfold column in H.
  destruct (col_index "Task Order #" (columns df)) as [i|] eqn:Ei;
    [|discriminate].
  destruct (existsb _ _) eqn:Ee in H; [discriminate|].
  set (df1 := concat df (frame_of_dict data)) in *.
  destruct (col_index "Task Order Start Date" (columns df1)) as [j|] eqn:Ej;
    [|discriminate].
  destruct (to_datetime pd _) as [dates|] eqn:Ed in H; [|discriminate].
  exists i, j, dates. repeat split; auto.
  unfold sort_values, set_column in H. rewrite Ej in H.
  cbn [columns rows] in H. rewrite Ej in H. now inversion H.
Qed.

End MergerFacts.

(* ================================================================== *)
(** * What [update_excel] does to the store *)

Section MergerClaims.
Variable pd : Pandas.

(** The rows of the table after [pd.concat]: those it had, laid out for the
    new columns, then the record. *)
Lemma rows_concat (data : dict) (df : DataFrame) :
  rows (concat df (frame_of_dict data))
  = (map (reindex (columns df) (columns (concat df (frame_of_dict data))))
         (rows df)
     ++ [reindex (map fst data) (columns (concat df (frame_of_dict data)))
           (map snd data)])%list.
Proof. reflexivity. Qed.

Lemma rows_concat_length (data : dict) (df : DataFrame) :
  Forall (fun r => List.length r
                   = List.length (columns (concat df (frame_of_dict data))))
         (rows (concat df (frame_of_dict data))).
Proof.
  rewrite rows_concat. apply Forall_app. split.
  - apply Forall_forall. intros r Hr. apply in_map_iff in Hr as (r0 & <- & _).
    apply length_reindex.
  - constructor; [apply length_reindex | constructor].
Qed.

(** After a merge that wrote, the key of the record is in the table. *)
Lemma merge_then_exists (data : dict) (df df' : DataFrame) (k : string) :
  dict_get "Task Order #" data = Some (Str k) ->
  merge pd data df = Written df' ->
  merge pd data df' = Exists.
Proof.
  intros Hk Hw.
  destruct (merge_written pd data df df' Hw)
    as (i & j & dates & Ht & Hi & _ & Hj & Hd & ->).
  set (df1 := concat df (frame_of_dict data)) in *.
  assert (Hi1 : col_index "Task Order #" (columns df1) = Some i)
    by (apply col_index_app; exact Hi).
  assert (Hij : i <> j).
  { intros ->. pose proof (col_index_inj _ _ _ _ Hi1 Hj). discriminate. }
  destruct (set_cells_reparse pd j (rows df1) dates Hd) as [Hset _].
  unfold merge. rewrite Ht. unfold column. cbn [columns rows].
  rewrite Hi1, Hset.
  assert (He : existsb (eq_task_order pd (dict_get "Task Order #" data))
                 (map (fun r => nth i r NaN)
                      (sort_desc j (map (reparse pd j) (rows df1)))) = true).
  { apply existsb_exists. exists (Str k). split.
    - apply in_map_iff.
      exists (reparse pd j (reindex (map fst data) (columns df1) (map snd data))).
      split.
      + rewrite reparse_other by exact Hij.
        rewrite (nth_reindex _ _ _ _ _ Hi1), cell_of_dict. now rewrite Hk.
      + apply (Permutation_in _ (Permutation_sym (sort_desc_perm j _))).
        apply in_map. unfold df1. rewrite rows_concat.
        apply in_or_app. right. now left.
    - rewrite Hk. simpl. apply String.eqb_refl. }
  now rewrite He.
Qed.

(** C1, as the code has it. A record without 'Task Order #' is never
    appended: the condition of [update_excel] fails on the missing key, the
    store is left as it is and the log says "already exists". *)
Theorem keyless_record_is_skipped (data : dict) (store : option DataFrame) :
  dict_get "Task Order #" data = None ->
  update_excel pd data store = (store, [LogAlreadyExists None]).
Proof.
  intros H. unfold update_excel, merge. now rewrite H.
Qed.

Lemma sorted_cells (j : nat) (rs : list (list value)) :
  Forall (fun r => is_date_or_missing (nth j r NaN)) rs ->
  StronglySorted (row_before j) rs ->
  StronglySorted not_before (map (fun r => nth j r NaN) rs).
Proof.
  induction rs as [|r rs IH]; simpl; intros Hd Hs; [constructor|].
  inversion Hd as [|? ? Hr Hrs]; subst.
  inversion Hs as [|? ? Hs' Hall]; subst.
  constructor; [now apply IH|].
  apply Forall_map. rewrite Forall_forall in *.
  intros r' Hr'. apply row_before_not_before; auto.
Qed.

(** C3. After every merge that appended a row and wrote the store, the
    'Task Order Start Date' column of the store holds only timestamps and
    missing cells, in non-increasing order of the timestamp, the rows
    without a date last. *)
Theorem written_store_is_sorted (data : dict) (store : option DataFrame)
        (df' : DataFrame) :
  update_excel pd data store
  = (Some df', [LogUpdated (dict_get "Task Order #" data)]) ->
  exists dates,
    column "Task Order Start Date" df' = Some dates
    /\ Forall is_date_or_missing dates
    /\ StronglySorted not_before dates.
Proof.
  unfold update_excel.
  set (df := match store with
             | Some written => read_excel pd written
             | None => empty_frame
             end).
  destruct (merge pd data df) as [df''| |] eqn:Em; intros H;
    inversion H; subst.
  destruct (merge_written pd data df df' Em)
    as (i & j & dates & _ & _ & _ & Hj & Hd & ->).
  set (df1 := concat df (frame_of_dict data)) in *.
  destruct (set_cells_reparse pd j (rows df1) dates Hd) as [Hset Hconv].
  rewrite Hset.
  assert (Hdates : Forall (fun r => is_date_or_missing (nth j r NaN))
                     (sort_desc j (map (reparse pd j) (rows df1)))).
  { apply (Permutation_Forall (Permutation_sym (sort_desc_perm j _))).
    apply Forall_map.
    pose proof (rows_concat_length data df) as Hlen. fold df1 in Hlen.
    rewrite Forall_forall in *. intros r Hr.
    apply reparse_date; [|now apply Hconv].
    rewrite (Hlen r Hr). eapply col_index_lt; eauto. }
  eexists. split; [|split].
  - unfold column. cbn [columns rows]. rewrite Hj. reflexivity.
  - apply Forall_map. exact Hdates.
  - apply sorted_cells; [exact Hdates | apply sort_desc_sorted].
Qed.

Lemma extracted_keys (pg : page) (data : dict) :
  fst (extract_pdf_data pg) = Some data -> incl (map fst data) store_columns.
Proof.
  destruct pg as [|[text|]]; simpl; try discriminate.
  destruct (extract_fields_run text) as [log0 ->]. intros H k Hk.
  apply (run_fields_keys _ _ _ _ _ H) in Hk.
  apply in_app_or in Hk as [Hk | Hk].
  - simpl in Hk. simpl. intuition.
  - unfold initial_record in Hk.
    destruct (extract_contractor_name text) as [name|]; [|contradiction].
    destruct (String.eqb name ""); [contradiction|].
    simpl in Hk. simpl. intuition.
Qed.

Lemma columns_concat_same (data : dict) (df : DataFrame) :
  incl (map fst data) (columns df) ->
  columns (concat df (frame_of_dict data)) = columns df.
Proof.
  intros H. unfold concat. cbn [columns frame_of_dict].
  rewrite (filter_new_columns_nil _ _ H). apply app_nil_r.
Qed.

(** C7, as the code has it. The store created on first write has the
    columns 'Task Order #', 'Contractor', 'Total Amount', 'Feeder ID',
    'Feeder Total Miles', '# of Work Orders', 'Task Order Start Date',
    'Task Order End Date', in this order, and the first record that is
    extracted and written leaves them so. *)
Theorem first_write_header (pg : page) (data : dict) (df' : DataFrame) :
  fst (extract_pdf_data pg) = Some data ->
  update_excel pd data None
  = (Some df', [LogUpdated (dict_get "Task Order #" data)]) ->
  columns empty_frame
  = [ "Task Order #"; "Contractor"; "Total Amount"; "Feeder ID";
      "Feeder Total Miles"; "# of Work Orders";
      "Task Order Start Date"; "Task Order End Date" ]
  /\ columns df' = columns empty_frame.
Proof.
  intros Hx Hu. split; [reflexivity|].
  unfold update_excel in Hu.
  destruct (merge pd data empty_frame) as [df''| |] eqn:Em;
    inversion Hu; subst.
  destruct (merge_written pd data empty_frame df' Em)
    as (_ & j & dates & _ & _ & _ & _ & _ & ->).
  cbn [columns]. apply columns_concat_same.
  exact (extracted_keys pg data Hx).
Qed.


End MergerClaims.

Lemma keyless_record_is_skipped_witness :
  dict_get "Task Order #" keyless_record = None
  /\ update_excel pandas_mdY keyless_record (Some one_row_store)
     = (Some one_row_store, [LogAlreadyExists None]).
Proof.
  split; [reflexivity|].
  now apply (keyless_record_is_skipped pandas_mdY keyless_record
               (Some one_row_store)).
Defined.

(** C1, as stated, fails: this record has no 'Task Order #', and after the
    merge the store has the one row it had. *)
Lemma keyless_record_not_appended :
  dict_get "Task Order #" keyless_record = None
  /\ fst (update_excel pandas_mdY keyless_record (Some one_row_store))
     = Some one_row_store
  /\ fst (update_excel pandas_mdY keyless_record None) = None.
Proof. repeat split; reflexivity. Qed.

Lemma written_store_is_sorted_witness :
  update_excel pandas_mdY second_record (Some one_row_store)
  = (Some two_row_store, [LogUpdated (dict_get "Task Order #" second_record)])
  /\ exists dates,
       column "Task Order Start Date" two_row_store = Some dates
       /\ Forall is_date_or_missing dates
       /\ StronglySorted not_before dates.
Proof.
  split; [reflexivity|].
  apply (written_store_is_sorted pandas_mdY second_record
           (Some one_row_store) two_row_store).
  reflexivity.
Defined.

(** C7, as stated, fails: the first column of a new store is
    'Task Order #', where the specification lists 'Contractor'. *)
Lemma header_differs_from_spec_order :
  columns empty_frame <> spec_column_order
  /\ hd "" (columns empty_frame) = "Task Order #"
  /\ hd "" spec_column_order = "Contractor".
Proof. split; [discriminate | split; reflexivity]. Qed.

Lemma first_write_header_witness :
  fst (extract_pdf_data
         (Page (Some "Task Order Number: B2 Start Date: 03/01/24")))
  = Some second_record
  /\ update_excel pandas_mdY second_record None
     = (Some (mkFrame store_columns
                [[Str "B2"; NaN; NaN; NaN; NaN; NaN;
                  Date 1709251200000000000; NaN]]),
        [LogUpdated (dict_get "Task Order #" second_record)])
  /\ columns (mkFrame store_columns
                [[Str "B2"; NaN; NaN; NaN; NaN; NaN;
                  Date 1709251200000000000; NaN]])
     = columns empty_frame.
Proof.
  split; [reflexivity|]. split; [reflexivity|].
  apply (first_write_header pandas_mdY
           (Page (Some "Task Order Number: B2 Start Date: 03/01/24"))
           second_record _ eq_refl eq_refl).
Defined.




(* ================================================================== *)
(** * Further properties of the merger *)

Section MergerMore.
Variable pd : Pandas.

Lemma cell_nth (cols : list string) (row : list value) (c : string) (i : nat) :
  col_index c cols = Some i -> cell cols row c = nth i row NaN.
Proof. unfold cell. now intros ->. Qed.

(** The rows after a merge that wrote: the old rows and the record, each
    laid out for the columns of the result and with the start date read
    again, in some order. *)
Lemma merge_written_rows (data : dict) (df df' : DataFrame) :
  merge pd data df = Written df' ->
  exists i j,
    col_index "Task Order #" (columns df) = Some i
    /\ col_index "Task Order #" (columns df') = Some i
    /\ col_index "Task Order Start Date" (columns df') = Some j
    /\ i <> j
    /\ columns df' = columns (concat df (frame_of_dict data))
    /\ existsb (eq_task_order pd (dict_get "Task Order #" data))
         (map (fun r => nth i r NaN) (rows df)) = false
    /\ Permutation (rows df')
         (map (fun r => reparse pd j (reindex (columns df) (columns df') r))
              (rows df)
          ++ [reparse pd j
                (reindex (map fst data) (columns df') (map snd data))]).
Proof.
  intros Hw.
  destruct (merge_written pd data df df' Hw)
    as (i & j & dates & Ht & Hi & He & Hj & Hd & ->).
  set (df1 := concat df (frame_of_dict data)) in *.
  assert (Hi1 : col_index "Task Order #" (columns df1) = Some i)
    by (apply col_index_app; exact Hi).
  assert (Hij : i <> j).
  { intros ->. pose proof (col_index_inj _ _ _ _ Hi1 Hj). discriminate. }
  destruct (set_cells_reparse pd j (rows df1) dates Hd) as [Hset _].
  exists i, j. cbn [columns rows]. repeat split; auto.
  rewrite Hset, sort_desc_perm. unfold df1 at 1. rewrite rows_concat.
  fold df1. rewrite map_app, map_map. reflexivity.
Qed.

(** X1. A merge that writes adds exactly one row. *)
Theorem merge_adds_one_row (data : dict) (df df' : DataFrame) :
  merge pd data df = Written df' ->
  List.length (rows df') = S (List.length (rows df)).
Proof.
  intros Hw.
  destruct (merge_written_rows data df df' Hw)
    as (i & j & _ & _ & _ & _ & _ & _ & Hp).
  rewrite (Permutation_length Hp), length_app, length_map. simpl. lia.
Qed.

(** X2. A merge that writes keeps every key of the 'Task Order #' column
    and adds the key of the record; when the keys were pairwise different as
    strings they still are. *)
Theorem merge_keeps_keys_unique (data : dict) (df df' : DataFrame)
        (keys : list value) (k : string) :
  dict_get "Task Order #" data = Some (Str k) ->
  column "Task Order #" df = Some keys ->
  merge pd data df = Written df' ->
  exists keys',
    column "Task Order #" df' = Some keys'
    /\ Permutation keys' (keys ++ [Str k])
    /\ (NoDup (map (astype_str pd) keys) ->
        NoDup (map (astype_str pd) keys')).
Proof.
  intros Hk Hc Hw.
  destruct (merge_written_rows data df df' Hw)
    as (i & j & Hi & Hi' & Hj & Hij & _ & He & Hp).
  unfold column in Hc. rewrite Hi in Hc. inversion Hc; subst keys; clear Hc.
  assert (Hperm : Permutation (map (fun r => nth i r NaN) (rows df'))
                    (map (fun r => nth i r NaN) (rows df) ++ [Str k])).
  { rewrite (Permutation_map _ Hp), map_app, map_map. simpl.
    rewrite reparse_other by exact Hij.
    rewrite (nth_reindex _ _ _ _ _ Hi'), cell_of_dict, Hk.
    apply Permutation_app_tail.
    erewrite map_ext; [reflexivity|]. intros r. cbv beta.
    rewrite reparse_other by exact Hij.
    rewrite (nth_reindex _ _ _ _ _ Hi'). now apply cell_nth. }
  exists (map (fun r => nth i r NaN) (rows df')).
  split; [unfold column; now rewrite Hi'|]. split; [exact Hperm|].
  intros Hnd.
  apply (Permutation_NoDup (Permutation_sym (Permutation_map _ Hperm))).
  rewrite map_app. simpl.
  apply NoDup_app; [exact Hnd | repeat constructor; simpl; tauto |].
  intros s Hs [<- | []].
  apply in_map_iff in Hs as (v & Hv & Hin).
  rewrite Hk in He.
  assert (Hex : existsb (eq_task_order pd (Some (Str k)))
                  (map (fun r => nth i r NaN) (rows df)) = true).
  { apply existsb_exists. exists v. split; [exact Hin|].
    unfold eq_task_order. rewrite Hv. apply String.eqb_refl. }
  congruence.
Qed.

End MergerMore.

Lemma merge_keeps_keys_unique_witness :
  dict_get "Task Order #" second_record = Some (Str "B2")
  /\ column "Task Order #" one_row_store = Some [Str "A1"]
  /\ merge pandas_mdY second_record one_row_store = Written two_row_store
  /\ exists keys',
       column "Task Order #" two_row_store = Some keys'
       /\ Permutation keys' ([Str "A1"] ++ [Str "B2"])
       /\ (NoDup (map (astype_str pandas_mdY) [Str "A1"]) ->
           NoDup (map (astype_str pandas_mdY) keys')).
Proof.
  split; [reflexivity|]. split; [reflexivity|]. split; [reflexivity|].
  exact (merge_keeps_keys_unique pandas_mdY second_record one_row_store
           two_row_store [Str "A1"] "B2" eq_refl eq_refl eq_refl).
Defined.

Lemma merge_adds_one_row_witness :
  merge pandas_mdY second_record one_row_store = Written two_row_store
  /\ List.length (rows two_row_store) = S (List.length (rows one_row_store)).
Proof.
  split; [reflexivity|].
  exact (merge_adds_one_row pandas_mdY second_record one_row_store
           two_row_store eq_refl).
Defined.

(* ================================================================== *)
(** * Further properties of the extractor *)

Lemma key_char_not_space (c : ascii) :
  in_class (CUnion CWord (CLit "-")) c = true -> not_space c = true.
Proof. by_cases_on_char c. Qed.

Lemma lit_hyphen (c : ascii) : in_class (CLit "-") c = true -> c = "-"%char.
Proof. by_cases_on_char c. Qed.

Lemma convert_plain (f raw : string) :
  String.eqb f "Total Amount" = false ->
  String.eqb f "Feeder Total Miles" = false ->
  String.eqb f "# of Work Orders" = false ->
  contains "Date" f = false ->
  convert f raw = Some (Str raw, []).
Proof. intros E1 E2 E3 E4. unfold convert. now rewrite E1, E2, E3, E4. Qed.

(** The key of an extracted record, when there is one. *)
Lemma task_order_of_extracted (pg : page) (data : dict) :
  fst (extract_pdf_data pg) = Some data ->
  dict_get "Task Order #" data = None
  \/ exists k,
       dict_get "Task Order #" data = Some (Str k)
       /\ k <> ""
       /\ all_chars (in_class (CUnion CWord (CLit "-"))) k = true
       /\ truthy (Some (Str k)) = true.
Proof.
  destruct pg as [|[text|]]; cbn [extract_pdf_data fst]; try discriminate.
  intros H.
  rewrite (extract_fields_get text data H "Task Order #" pat_task_order)
    by (simpl; auto).
  destruct (search pat_task_order text) as [g|] eqn:Es; [|now left].
  right. apply search_sound in Es. simpl grp in Es. unfold Plus in Es.
  inv_lang.
  match goal with H : lang (Star _) _ |- _ => apply lang_star_all in H end.
  match goal with
  | Hx : in_class _ ?x = true, Hw : all_chars _ ?w = true |- _ =>
      assert (Hall : all_chars (in_class (CUnion CWord (CLit "-")))
                       (String x w) = true)
        by (cbn [all_chars]; apply andb_true_iff; split; assumption);
      exists (String x w)
  end.
  simpl append.
  rewrite strip_no_space
    by exact (all_chars_impl _ _ _ key_char_not_space Hall).
  rewrite convert_plain by reflexivity.
  cbn [option_map fst]. repeat split; [discriminate | exact Hall].
Qed.

(** X3. In every record the extractor returns, 'Task Order #' is absent or
    a non-empty string of letters, digits, underscores and hyphens, which
    the condition of [update_excel] takes for true. *)
Theorem extracted_task_order_shape (pg : page) (data : dict) :
  fst (extract_pdf_data pg) = Some data ->
  dict_get "Task Order #" data = None
  \/ exists k,
       dict_get "Task Order #" data = Some (Str k)
       /\ k <> ""
       /\ all_chars (in_class (CUnion CWord (CLit "-"))) k = true
       /\ truthy (Some (Str k)) = true.
Proof. exact (task_order_of_extracted pg data). Qed.

Lemma extracted_task_order_shape_witness :
  fst (extract_pdf_data
         (Page (Some "Task Order Number: B2 Start Date: 03/01/24")))
  = Some second_record
  /\ (dict_get "Task Order #" second_record = None
      \/ exists k,
           dict_get "Task Order #" second_record = Some (Str k)
           /\ k <> ""
           /\ all_chars (in_class (CUnion CWord (CLit "-"))) k = true
           /\ truthy (Some (Str k)) = true).
Proof.
  split; [reflexivity|].
  exact (extracted_task_order_shape
           (Page (Some "Task Order Number: B2 Start Date: 03/01/24"))
           second_record eq_refl).
Defined.

(** X4. In every record the extractor returns, 'Feeder ID' is absent or
    four digits, a hyphen and two digits. *)
Theorem extracted_feeder_id_shape (pg : page) (data : dict) (v : value) :
  fst (extract_pdf_data pg) = Some data ->
  dict_get "Feeder ID" data = Some v ->
  exists a b c d e f,
    v = Str (String a (String b (String c (String d
              (String "-" (String e (String f "")))))))
    /\ is_digit a = true /\ is_digit b = true /\ is_digit c = true
    /\ is_digit d = true /\ is_digit e = true /\ is_digit f = true.
Proof.
  destruct pg as [|[text|]]; simpl; try discriminate. intros H.
  rewrite (extract_fields_get text data H "Feeder ID" pat_feeder_id)
    by (simpl; auto).
  destruct (search pat_feeder_id text) as [g|] eqn:Es; [|discriminate].
  apply search_sound in Es. simpl grp in Es. unfold d4, d2 in Es.
  cbn [seqs] in Es. inv_lang.
  match goal with H : in_class (CLit "-") _ = true |- _ =>
    apply lit_hyphen in H; subst end.
  cbn [append]. cbn [in_class] in *.
  rewrite strip_no_space.
  - rewrite convert_plain by reflexivity. cbn [option_map fst]. intros Hv.
    inversion Hv; subst. do 6 eexists. split; [reflexivity|]. auto 10.
  - cbn [all_chars].
    repeat match goal with H : is_digit ?x = true |- _ =>
      rewrite (digit_not_space x H); clear H end.
    reflexivity.
Qed.

Lemma extracted_feeder_id_shape_witness :
  fst (extract_pdf_data (Page (Some "Feeder ID: 1234-56")))
  = Some [("Feeder ID", Str "1234-56")]
  /\ dict_get "Feeder ID" [("Feeder ID", Str "1234-56")]
     = Some (Str "1234-56")
  /\ exists a b c d e f,
       Str "1234-56"
       = Str (String a (String b (String c (String d
                (String "-" (String e (String f "")))))))
       /\ is_digit a = true /\ is_digit b = true /\ is_digit c = true
       /\ is_digit d = true /\ is_digit e = true /\ is_digit f = true.
Proof.
  split; [reflexivity|]. split; [reflexivity|].
  exact (extracted_feeder_id_shape (Page (Some "Feeder ID: 1234-56"))
           [("Feeder ID", Str "1234-56")] (Str "1234-56") eq_refl eq_refl).
Defined.

(** With a continuation that always succeeds, [(?:\d{2}|\d{4})] stops after
    two digits: the first alternative is never given up. *)
Lemma year_takes_two_digits (A : Type) (s : string) (k : string -> option A)
      (a : A) :
  (forall s', k s' <> None) ->
  matchk (Alt d2 d4) s k = Some a ->
  exists x y s',
    s = String x (String y s')
    /\ is_digit x = true /\ is_digit y = true /\ k s' = Some a.
Proof.
  intros Hk. unfold d4, d2. cbn [matchk in_class].
  destruct s as [|x [|y s']].
  - discriminate.
  - destruct (is_digit x); discriminate.
  - destruct (is_digit x) eqn:Ex; [|discriminate].
    destruct (is_digit y) eqn:Ey; [|discriminate].
    destruct (k s') as [a'|] eqn:Eks.
    + intros H. inversion H; subst. now exists x, y, s'.
    + exfalso. now apply (Hk s').
Qed.

(** What a date pattern hands over when it matches at the start of [s]. *)
Lemma date_capture_here (pre0 : regex) (s g : string) :
  match_here (mkPattern pre0 date_group Eps) s = Some g ->
  exists a b c d x y,
    g = String a (String b (String "/" (String c (String d
          (String "/" (String x (String y "")))))))
    /\ is_digit a = true /\ is_digit b = true /\ is_digit c = true
    /\ is_digit d = true /\ is_digit x = true /\ is_digit y = true.
Proof.
  unfold match_here, capture. cbn [pre grp post]. intros H.
  apply matchk_sound in H as (w0 & s1 & _ & _ & H).
  unfold date_group in H. cbn [seqs] in H.
  change (matchk (Seq d2 ?r) ?s ?k)
    with (matchk d2 s (fun s' => matchk r s' k)) in H.
  apply matchk_sound in H as (w1 & t1 & E1 & L1 & H).
  change (matchk (Seq (Chr (CLit "/")) ?r) ?s ?k)
    with (matchk (Chr (CLit "/")) s (fun s' => matchk r s' k)) in H.
  apply matchk_sound in H as (w2 & t2 & E2 & L2 & H).
  change (matchk (Seq d2 ?r) ?s ?k)
    with (matchk d2 s (fun s' => matchk r s' k)) in H.
  apply matchk_sound in H as (w3 & t3 & E3 & L3 & H).
  change (matchk (Seq (Chr (CLit "/")) ?r) ?s ?k)
    with (matchk (Chr (CLit "/")) s (fun s' => matchk r s' k)) in H.
  apply matchk_sound in H as (w4 & t4 & E4 & L4 & H).
  apply year_takes_two_digits in H as (x & y & s' & E5 & Hx & Hy & H);
    [|cbn [matchk]; discriminate].
  cbn [matchk] in H. inversion H; subst; clear H.
  unfold d2 in L1, L3. inv_lang.
  repeat match goal with H : in_class (CLit "/") _ = true |- _ =>
    apply lit_slash in H; subst end.
  cbn [in_class] in *. cbn [append].
  match goal with
  | |- context [consumed (String ?a (String ?b (String "/" (String ?c
          (String ?d (String "/" (String ?x (String ?y ?t)))))))) ?t] =>
      change (String a (String b (String "/" (String c
                (String d (String "/" (String x (String y t))))))))
        with ((String a (String b (String "/" (String c
                (String d (String "/" (String x (String y "")))))))) ++ t);
      rewrite consumed_app;
      exists a, b, c, d, x, y
  end.
  auto 10.
Qed.

Lemma date_capture (pre0 : regex) (s g : string) :
  search (mkPattern pre0 date_group Eps) s = Some g ->
  exists a b c d x y,
    g = String a (String b (String "/" (String c (String d
          (String "/" (String x (String y "")))))))
    /\ is_digit a = true /\ is_digit b = true /\ is_digit c = true
    /\ is_digit d = true /\ is_digit x = true /\ is_digit y = true.
Proof.
  induction s as [|c0 s IH]; simpl search; intros H.
  - destruct (match_here _ "") eqn:E; [|discriminate].
    inversion H; subst. eapply date_capture_here; eauto.
  - destruct (match_here _ (String c0 s)) eqn:E.
    + inversion H; subst. eapply date_capture_here; eauto.
    + auto.
Qed.

(** X5. Whatever the text, a date pattern captures exactly [dd/dd/dd]: a
    year written on four digits is cut after its second digit, so the
    coercion always takes the two-digit-year format and the four-digit
    branch is never reached from [extract_pdf_data]. *)
Theorem date_capture_has_two_digit_year (text field g : string)
        (p : pattern) :
  In (field, p) patterns ->
  contains "Date" field = true ->
  search p text = Some g ->
  String.length g = 8%nat
  /\ String.length (last_token g) = 2%nat
  /\ coerce_date g
     = match strptime Fmt_mdy g with
       | Some d => (strftime d, false)
       | None => (g, true)
       end.
Proof.
  intros Hin Hd Hs.
  assert (Hshape : exists a b c d x y,
             g = String a (String b (String "/" (String c (String d
                   (String "/" (String x (String y "")))))))
             /\ is_digit a = true /\ is_digit b = true /\ is_digit c = true
             /\ is_digit d = true /\ is_digit x = true /\ is_digit y = true).
  { pick_pattern Hin; inversion Hin; subst; try discriminate Hd;
      eapply date_capture; exact Hs. }
  destruct Hshape as (a & b & c & d & x & y & -> & Ha & Hb & Hc & Hd' & Hx & Hy).
  assert (Ht : last_token
                 (String a (String b (String "/" (String c (String d
                   (String "/" (String x (String y ""))))))))
               = String x (String y "")).
  { apply (last_token_written
             (String a (String b (String "/" (String c (String d "")))))
             (String x (String y ""))).
    cbn [all_chars]. now rewrite Hx, Hy. }
  split; [reflexivity|]. split; [now rewrite Ht|].
  unfold coerce_date. now rewrite Ht.
Qed.

Lemma date_capture_has_two_digit_year_witness :
  In ("Task Order End Date", pat_end_date) patterns
  /\ contains "Date" "Task Order End Date" = true
  /\ search pat_end_date "End Date: 02/15/2024" = Some "02/15/20"
  /\ String.length "02/15/20" = 8%nat
  /\ String.length (last_token "02/15/20") = 2%nat.
Proof.
  assert (Hin : In ("Task Order End Date", pat_end_date) patterns)
    by (simpl; auto 8).
  split; [exact Hin|]. split; [reflexivity|]. split; [reflexivity|].
  destruct (date_capture_has_two_digit_year "End Date: 02/15/2024"
              "Task Order End Date" "02/15/20" pat_end_date Hin
              eq_refl eq_refl) as [H1 [H2 _]].
  split; [exact H1 | exact H2].
Defined.

Lemma digit_val_nonneg (c : ascii) : is_digit c = true -> 0 <= digit_val c.
Proof. by_cases_on_char c. Qed.

Lemma digits_value_nonneg (s : string) :
  all_chars is_digit s = true ->
  forall acc, 0 <= acc -> 0 <= digits_value acc s.
Proof.
  induction s as [|c s IH]; cbn [digits_value all_chars];
    intros H acc Hacc; [exact Hacc|].
  apply andb_true_iff in H as [Hc Hs]. apply IH; [exact Hs|].
  pose proof (digit_val_nonneg c Hc). lia.
Qed.

(** X6. In every record the extractor returns, '# of Work Orders' is absent
    or a non-negative integer. *)
Theorem extracted_work_orders_is_count (pg : page) (data : dict) (v : value) :
  fst (extract_pdf_data pg) = Some data ->
  dict_get "# of Work Orders" data = Some v ->
  exists n, v = Num (inject_Z n) /\ 0 <= n.
Proof.
  destruct pg as [|[text|]]; cbn [extract_pdf_data fst]; try discriminate.
  intros H.
  rewrite (extract_fields_get text data H "# of Work Orders" pat_work_orders)
    by (simpl; auto 8).
  destruct (search pat_work_orders text) as [g|] eqn:Es; [|discriminate].
  apply search_sound in Es. simpl grp in Es. unfold Plus in Es. inv_lang.
  match goal with H : lang (Star _) _ |- _ => apply lang_star_all in H end.
  cbn [in_class] in *.
  match goal with
  | Hx : is_digit ?x = true, Hw : all_chars _ ?w = true |- _ =>
      assert (Hall : all_chars is_digit (String x w) = true)
        by (cbn [all_chars]; apply andb_true_iff; split; assumption)
  end.
  cbn [append].
  rewrite strip_no_space
    by exact (all_chars_impl _ _ _ digit_not_space Hall).
  unfold convert. simpl String.eqb. cbv iota.
  match goal with |- context [py_int ?g] =>
    destruct (Nat.leb (String.length g) int_max_str_digits) eqn:El;
    [ rewrite (py_int_digits g Hall) by
        (try discriminate; now apply Nat.leb_le)
    | assert (En : py_int g = None);
      [ unfold py_int;
        rewrite strip_no_space
          by exact (all_chars_impl _ _ _ digit_not_space Hall);
        rewrite take_sign_digit_or_dot
          by (left; cbn [all_chars] in Hall;
              now apply andb_true_iff in Hall as [Hx' _]);
        rewrite (span_digits_all _ Hall); now rewrite El
      | rewrite En ] ]
  end.
  - cbn [option_map fst]. intros Hv.
    match type of Hall with all_chars _ ?g = true =>
      exists (digits_value 0 g) end.
    split; [now inversion Hv|].
    apply digits_value_nonneg; [exact Hall | lia].
  - discriminate.
Qed.

Lemma extracted_work_orders_is_count_witness :
  fst (extract_pdf_data (Page (Some "Work Orders: 7 WO locations")))
  = Some [("# of Work Orders", Num (inject_Z 7))]
  /\ dict_get "# of Work Orders" [("# of Work Orders", Num (inject_Z 7))]
     = Some (Num (inject_Z 7))
  /\ exists n, Num (inject_Z 7) = Num (inject_Z n) /\ 0 <= n.
Proof.
  split; [reflexivity|]. split; [reflexivity|].
  exact (extracted_work_orders_is_count
           (Page (Some "Work Orders: 7 WO locations"))
           [("# of Work Orders", Num (inject_Z 7))] (Num (inject_Z 7))
           eq_refl eq_refl).
Defined.

(** Every event that is in the log when the loop starts is in it at the
    end. *)
Lemma run_fields_log_incl (text : string) (ps : list (string * pattern))
      (data : dict) (log : list event) (e : event) :
  In e log -> In e (snd (run_fields text ps data log)).
Proof.
  intros H. destruct (run_fields_log text ps data log) as [rest ->].
  apply in_or_app. now left.
Qed.

Lemma run_fields_events (text : string) (ps : list (string * pattern)) :
  forall data log data',
    fst (run_fields text ps data log) = Some data' ->
    forall f p, In (f, p) ps ->
      match search p text with
      | Some g =>
          exists v evs, convert f (strip g) = Some (v, evs)
                        /\ In (LogExtracted f v)
                             (snd (run_fields text ps data log))
      | None => In (LogNotFound f) (snd (run_fields text ps data log))
      end.
Proof.
  induction ps as [|[f0 p0] ps IH]; simpl; intros data log data' H f p Hin;
    [contradiction|].
  destruct (search p0 text) as [g0|] eqn:Es0.
  - destruct (convert f0 (strip g0)) as [[v0 evs0]|] eqn:Ec0; [|discriminate].
    destruct Hin as [Heq | Hin].
    + inversion Heq; subst. rewrite Es0. exists v0, evs0. split; [exact Ec0|].
      apply run_fields_log_incl. apply in_or_app. right.
      apply in_or_app. right. now left.
    + exact (IH _ _ _ H f p Hin).
  - destruct Hin as [Heq | Hin].
    + inversion Heq; subst. rewrite Es0.
      apply run_fields_log_incl. apply in_or_app. right. now left.
    + exact (IH _ _ _ H f p Hin).
Qed.

(** When the loop returns a record, the only events of level ERROR it added
    to the log are date errors. *)
Lemma run_fields_errors (text : string) (ps : list (string * pattern)) :
  forall data log data',
    fst (run_fields text ps data log) = Some data' ->
    Forall (fun e => level_of e = ERROR -> exists raw, e = LogDateError raw)
           log ->
    Forall (fun e => level_of e = ERROR -> exists raw, e = LogDateError raw)
           (snd (run_fields text ps data log)).
Proof.
  induction ps as [|[f0 p0] ps IH]; simpl; intros data log data' H Hlog;
    [exact Hlog|].
  destruct (search p0 text) as [g0|].
  - destruct (convert f0 (strip g0)) as [[v0 evs0]|] eqn:Ec0; [|discriminate].
    apply (IH _ _ _ H). apply Forall_app. split; [exact Hlog|].
    apply Forall_app. split.
    + unfold convert in Ec0.
      repeat match type of Ec0 with
             | (if ?b then _ else _) = _ => destruct b
             | option_map _ ?o = _ => destruct o; cbn [option_map] in Ec0
             | match coerce_date ?r with _ => _ end = _ =>
                 destruct (coerce_date r) as [s []]
             end;
        inversion Ec0; subst; repeat constructor; eauto; discriminate.
    + repeat constructor. discriminate.
  - apply (IH _ _ _ H). apply Forall_app. split; [exact Hlog|].
    repeat constructor. discriminate.
Qed.

(** X7. When a record is returned, the log accounts for every field of the
    pattern table: a field that was not found is absent from the record and
    logged as a warning, a field of the record is logged with its value, and
    the only errors in the log are date errors. *)
Theorem extraction_log_accounts_for_fields (text : string) (data : dict) :
  fst (extract_pdf_data (Page (Some text))) = Some data ->
  (forall f p, In (f, p) patterns ->
     (search p text = None ->
        dict_get f data = None
        /\ In (LogNotFound f) (snd (extract_pdf_data (Page (Some text))))
        /\ level_of (LogNotFound f) = WARNING)
     /\ (forall v, dict_get f data = Some v ->
           In (LogExtracted f v) (snd (extract_pdf_data (Page (Some text))))))
  /\ Forall (fun e => level_of e = ERROR -> exists raw, e = LogDateError raw)
       (snd (extract_pdf_data (Page (Some text)))).
Proof.
  cbn [extract_pdf_data]. intros H. split.
  - intros f p Hin.
    pose proof (extract_fields_get text data H f p Hin) as Hget.
    destruct (extract_fields_run text) as [log0 Erun]. rewrite Erun in *.
    pose proof (run_fields_events text patterns _ _ _ H f p Hin) as Hev.
    split.
    + intros Hs. rewrite Hs in Hget, Hev. auto.
    + intros v Hv. rewrite Hv in Hget.
      destruct (search p text) as [g|]; [|discriminate].
      destruct Hev as (v' & evs & Hc & Hlog). rewrite Hc in Hget.
      cbn [option_map fst] in Hget. now inversion Hget; subst.
  - unfold extract_fields in *.
    destruct (extract_contractor_name text) as [name|];
      [destruct (String.eqb name "")|];
      apply (run_fields_errors _ _ _ _ _ H);
      repeat constructor; discriminate.
Qed.

Lemma extraction_log_accounts_for_fields_witness :
  fst (extract_pdf_data (Page (Some "Feeder ID: 1234-56")))
  = Some [("Feeder ID", Str "1234-56")]
  /\ In (LogNotFound "Total Amount")
        (snd (extract_pdf_data (Page (Some "Feeder ID: 1234-56"))))
  /\ In (LogExtracted "Feeder ID" (Str "1234-56"))
        (snd (extract_pdf_data (Page (Some "Feeder ID: 1234-56")))).
Proof.
  split; [reflexivity|].
  pose proof (extraction_log_accounts_for_fields "Feeder ID: 1234-56"
                [("Feeder ID", Str "1234-56")] eq_refl) as [H _].
  assert (H1 : In ("Total Amount", pat_total_amount) patterns)
    by (right; left; reflexivity).
  assert (H2 : In ("Feeder ID", pat_feeder_id) patterns)
    by (right; right; left; reflexivity).
  split.
  - exact (proj1 (proj2 (proj1 (H _ _ H1) eq_refl))).
  - exact (proj2 (H _ _ H2) (Str "1234-56") eq_refl).
Defined.

(** X8. Whether a pattern is found does not depend on the case of the text,
    and what it captures in the lower-cased text is what it captures in the
    text, lower-cased: labels such as 'START DATE:' or 'feeder id' are found
    like 'Start Date:' and 'Feeder ID'. *)
Theorem search_ignores_case (p : pattern) (s t : string) :
  lowercase s = lowercase t ->
  option_map lowercase (search p s) = option_map lowercase (search p t).
Proof.
  intros H.
  rewrite <- (search_lower p s), <- (search_lower p t). now rewrite H.
Qed.

Lemma search_ignores_case_witness :
  lowercase "START DATE: 01/05/24" = lowercase "Start Date: 01/05/24"
  /\ option_map lowercase (search pat_start_date "START DATE: 01/05/24")
     = option_map lowercase (search pat_start_date "Start Date: 01/05/24").
Proof.
  split; [reflexivity|].
  exact (search_ignores_case pat_start_date "START DATE: 01/05/24"
           "Start Date: 01/05/24" eq_refl).
Defined.

(* ================================================================== *)
(** * When the mileage conversion raises *)

Lemma digit_or_dot (c : ascii) :
  in_class (CUnion CDigit (CLit ".")) c = true ->
  is_digit c = true \/ c = "."%char.
Proof. by_cases_on_char c. Qed.

Lemma digit_or_dot_not_space (c : ascii) :
  in_class (CUnion CDigit (CLit ".")) c = true -> not_space c = true.
Proof. by_cases_on_char c. Qed.

Lemma digit_not_dot (c : ascii) : is_digit c = true -> is_dot c = false.
Proof. by_cases_on_char c. Qed.

Lemma count_chars_app (P : ascii -> bool) (a b : string) :
  count_chars P (a ++ b) = (count_chars P a + count_chars P b)%nat.
Proof.
  induction a as [|c a IH]; cbn [append count_chars]; [reflexivity|].
  rewrite IH. lia.
Qed.

Lemma count_digits_all (ds : string) :
  all_chars is_digit ds = true ->
  count_chars is_digit ds = String.length ds
  /\ count_chars is_dot ds = 0%nat.
Proof.
  induction ds as [|c ds IH]; cbn [all_chars count_chars String.length];
    intros H; [split; reflexivity|].
  apply andb_true_iff in H as [Hc Hs]. destruct (IH Hs) as [-> ->].
  now rewrite Hc, (digit_not_dot c Hc).
Qed.

(** A text of digits and dots is a run of digits, alone or followed by a
    dot and a text of digits and dots. *)
Lemma split_at_dot (s : string) :
  all_chars (in_class (CUnion CDigit (CLit "."))) s = true ->
  exists ds,
    all_chars is_digit ds = true
    /\ (s = ds
        \/ exists t, s = ds ++ String "." t
                     /\ all_chars (in_class (CUnion CDigit (CLit "."))) t
                        = true).
Proof.
  induction s as [|c s IH]; cbn [all_chars]; intros H.
  - exists "". split; [reflexivity | now left].
  - apply andb_true_iff in H as [Hc Hs].
    destruct (digit_or_dot c Hc) as [Hd | ->].
    + destruct (IH Hs) as (ds & Hds & [-> | (t & -> & Ht)]).
      * exists (String c ds). cbn [all_chars]. rewrite Hd, Hds.
        split; [reflexivity | now left].
      * exists (String c ds). cbn [all_chars]. rewrite Hd, Hds.
        split; [reflexivity|]. right. now exists t.
    + exists "". split; [reflexivity|]. right. now exists s.
Qed.

Lemma py_float_unsigned (s : string) (ip rest : string) :
  all_chars not_space s = true ->
  (forall c t, s = String c t -> is_digit c = true \/ c = "."%char) ->
  span_digits s = (ip, rest) ->
  py_float s
  = (let '(fp, after_frac) :=
       match rest with
       | String c s' =>
           if (code c =? 46)%N then span_digits s' else ("", rest)
       | "" => ("", rest)
       end in
     match ip, fp with
     | "", "" => None
     | _, _ =>
         match float_exponent after_frac with
         | Some e =>
             Some (Qred (scale10 (inject_Z (digits_value 0 (ip ++ fp)))
                           (e - Z.of_nat (String.length fp))))
         | None => None
         end
     end).
Proof.
  intros Hns Hfirst Hspan. unfold py_float.
  rewrite (strip_no_space s Hns).
  assert (Hsign : take_sign s = (false, s)).
  { destruct s as [|c t]; [reflexivity|].
    apply take_sign_digit_or_dot. now apply (Hfirst c t). }
  rewrite Hsign, Hspan. reflexivity.
Qed.

(** X11. The text the mileage pattern captures is made of digits and dots;
    [float] rejects it, and the document gives no record, exactly when it
    has no digit or more than one dot. *)
Theorem mileage_conversion_raises (text g : string) :
  search pat_miles text = Some g ->
  strip g = g
  /\ (convert "Feeder Total Miles" (strip g) = None <->
      count_chars is_digit g = 0%nat \/ (2 <= count_chars is_dot g)%nat).
Proof.
  intros Hs. apply search_sound in Hs. simpl grp in Hs. unfold Plus in Hs.
  inv_lang.
  match goal with H : lang (Star _) _ |- _ => apply lang_star_all in H end.
  match goal with
  | Hx : in_class _ ?x = true, Hw : all_chars _ ?w = true |- _ =>
      assert (Hall : all_chars (in_class (CUnion CDigit (CLit ".")))
                       (String x w) = true)
        by (cbn [all_chars]; apply andb_true_iff; split; assumption);
      cbn [append]; set (g := String x w) in *;
      assert (Hne : g <> "") by discriminate
  end.
  clearbody g.
  assert (Hns : all_chars not_space g = true)
    by exact (all_chars_impl _ _ _ digit_or_dot_not_space Hall).
  rewrite (strip_no_space g Hns). split; [reflexivity|].
  assert (Hconv : convert "Feeder Total Miles" g = None <-> py_float g = None).
  { unfold convert. simpl String.eqb. cbv iota.
    destruct (py_float g); cbn [option_map]; split; congruence. }
  rewrite Hconv.
  assert (Hfirst : forall c t, g = String c t ->
                               is_digit c = true \/ c = "."%char).
  { intros c t ->. cbn [all_chars] in Hall.
    apply andb_true_iff in Hall as [Hc _]. now apply digit_or_dot. }
  destruct (split_at_dot g Hall) as (ip & Hip & [-> | (t & -> & Ht)]).
  - (* digits only *)
    rewrite (py_float_unsigned ip ip "" Hns Hfirst (span_digits_all ip Hip)).
    destruct (count_digits_all ip Hip) as [-> ->].
    destruct ip as [|c ip]; [congruence|].
    cbn [float_exponent String.length]. split; [discriminate|].
    intros [H | H]; [discriminate | lia].
  - rewrite (py_float_unsigned _ ip (String "." t) Hns Hfirst
               (span_digits_app ip "." t Hip eq_refl)).
    change (code "." =? 46)%N with true. cbv iota.
    rewrite !count_chars_app. cbn [count_chars].
    change (is_digit ".") with false. change (is_dot ".") with true.
    destruct (count_digits_all ip Hip) as [-> ->].
    destruct (split_at_dot t Ht) as (fp & Hfp & [-> | (t' & -> & Ht')]).
    + (* one dot *)
      rewrite (span_digits_all fp Hfp).
      destruct (count_digits_all fp Hfp) as [-> ->].
      destruct ip as [|c ip], fp as [|c' fp];
        cbn [float_exponent String.length]; split;
        try discriminate; try (intros [H | H]; [discriminate | lia]);
        try lia; auto.
    + (* two dots or more *)
      rewrite (span_digits_app fp "." t' Hfp eq_refl).
      rewrite !count_chars_app. cbn [count_chars].
      change (is_dot ".") with true.
      assert (Hexp : float_exponent (String "." t') = None) by reflexivity.
      rewrite Hexp. split; [intros _; right; lia|].
      intros _. now destruct ip, fp.
Qed.

Lemma mileage_conversion_raises_witness :
  search pat_miles "Length: 1.2.3 overhead miles" = Some "1.2.3"
  /\ convert "Feeder Total Miles" (strip "1.2.3") = None
  /\ (2 <= count_chars is_dot "1.2.3")%nat.
Proof.
  split; [reflexivity|].
  destruct (mileage_conversion_raises "Length: 1.2.3 overhead miles" "1.2.3"
              eq_refl) as [_ H].
  split; [|cbv; lia].
  apply H. right. cbv. lia.
Defined.

(* ================================================================== *)
(** * Merging into a table of the usual shape, and merging again *)

Section LoadedTables.
Variable pd : Pandas.

(** After a merge that wrote, the start dates are timestamps or missing and
    the rows are in the order of the sort. *)
Lemma merge_written_dates (data : dict) (df df' : DataFrame) (j : nat) :
  merge pd data df = Written df' ->
  col_index "Task Order Start Date" (columns df') = Some j ->
  Forall (fun r => is_date_or_missing (nth j r NaN)) (rows df')
  /\ StronglySorted (row_before j) (rows df').
Proof.
  intros Hw Hj'.
  destruct (merge_written pd data df df' Hw)
    as (i & j0 & dates & _ & _ & _ & Hj & Hd & ->).
  cbn [columns rows] in *. rewrite Hj in Hj'. inversion Hj'; subst j0.
  set (df1 := concat df (frame_of_dict data)) in *.
  destruct (set_cells_reparse pd j (rows df1) dates Hd) as [Hset Hconv].
  rewrite Hset. split; [|apply sort_desc_sorted].
  apply (Permutation_Forall (Permutation_sym (sort_desc_perm j _))).
  apply Forall_map.
  pose proof (rows_concat_length data df) as Hlen. fold df1 in Hlen.
  rewrite Forall_forall in *. intros r Hr.
  apply reparse_date; [|now apply Hconv].
  rewrite (Hlen r Hr). eapply col_index_lt; eauto.
Qed.

Lemma store_columns_nodup : NoDup store_columns.
Proof.
  unfold store_columns. repeat constructor; simpl; intuition discriminate.
Qed.

(** X9. When the table [update_excel] has loaded has the shape [store_ok]
    (the eight columns, one cell per column, non-empty string keys that are
    pairwise different, start dates that are timestamps or missing), merging
    an extracted record into it writes a table of that shape and rewrites
    none of the loaded rows: the rows written are the rows loaded and one
    new row, in some order. *)
Theorem merge_keeps_store_ok (pg : page) (data : dict) (df df' : DataFrame) :
  store_ok df ->
  fst (extract_pdf_data pg) = Some data ->
  merge pd data df = Written df' ->
  store_ok df'
  /\ exists new_row, Permutation (rows df') (rows df ++ [new_row]).
Proof.
  intros (Hcols & Hlen & Hkeys & Hnd & Hdates & _) Hx Hw.
  destruct (merge_written_rows pd data df df' Hw)
    as (i & j & Hi & _ & Hj & Hij & Hcols' & He & Hp).
  assert (Hsame : columns df' = store_columns).
  { rewrite Hcols', <- Hcols. apply columns_concat_same.
    rewrite Hcols. exact (extracted_keys pg data Hx). }
  rewrite Hcols in Hi. rewrite Hsame in Hj, Hp. rewrite Hcols in Hp.
  assert (Ei : i = 0%nat) by (cbv in Hi; congruence).
  assert (Ej : j = 6%nat) by (cbv in Hj; congruence).
  subst i j.
  destruct (merge_written_dates data df df' 6 Hw) as [Hdates' Hsorted'];
    [now rewrite Hsame|].
  set (new_row := reparse pd 6
                    (reindex (map fst data) store_columns (map snd data)))
    in *.
  assert (Hold : map (fun r => reparse pd 6
                                 (reindex store_columns store_columns r))
                     (rows df) = rows df).
  { rewrite <- (map_id (rows df)) at 2. apply map_ext_in. intros r Hr.
    rewrite Forall_forall in Hlen, Hdates.
    rewrite reindex_same;
      [| exact store_columns_nodup | now apply Hlen].
    apply reparse_fixed. now apply Hdates. }
  rewrite Hold in Hp.
  assert (Hkey : exists k, dict_get "Task Order #" data = Some (Str k)
                           /\ k <> "").
  { destruct (task_order_of_extracted pg data Hx)
      as [Hn | (k & Hk & Hne & _)]; [|now exists k].
    unfold merge in Hw. rewrite Hn in Hw. discriminate. }
  destruct Hkey as (k & Hk & Hne).
  assert (Hnew0 : nth 0 new_row NaN = Str k).
  { unfold new_row. rewrite reparse_other by discriminate.
    rewrite (nth_reindex _ store_columns _ "Task Order #" 0 eq_refl).
    now rewrite cell_of_dict, Hk. }
  split; [|now exists new_row].
  repeat split.
  - exact Hsame.
  - apply (Permutation_Forall (Permutation_sym Hp)).
    apply Forall_app. split; [exact Hlen|].
    constructor; [|constructor].
    unfold new_row. now rewrite length_reparse, length_reindex.
  - apply (Permutation_Forall (Permutation_sym Hp)).
    apply Forall_app. split; [exact Hkeys|].
    constructor; [now exists k | constructor].
  - apply (Permutation_NoDup (Permutation_sym (Permutation_map _ Hp))).
    rewrite map_app. cbn [map]. rewrite Hnew0.
    apply NoDup_app; [exact Hnd | repeat constructor; simpl; tauto |].
    intros v Hv [<- | []].
    rewrite Hk in He.
    assert (Hex : existsb (eq_task_order pd (Some (Str k)))
                    (map (fun r => nth 0 r NaN) (rows df)) = true).
    { apply existsb_exists. exists (Str k). split; [exact Hv|].
      cbn [eq_task_order astype_str]. apply String.eqb_refl. }
    congruence.
  - exact Hdates'.
  - exact Hsorted'.
Qed.


(** A merge that finds the key does so on every table with the same
    'Task Order #' column. *)
Lemma merge_exists_by_column (data : dict) (a b : DataFrame) :
  column "Task Order #" a = column "Task Order #" b ->
  truthy (dict_get "Task Order #" data) = true ->
  merge pd data a = Exists -> merge pd data b = Exists.
Proof.
  intros Hc Ht. unfold merge. rewrite Ht, Hc.
  destruct (column "Task Order #" b) as [keys|]; [|discriminate].
  destruct (existsb _ keys); [reflexivity|].
  destruct (column _ (concat a _)) as [dates|]; [|discriminate].
  destruct (to_datetime pd dates); discriminate.
Qed.

(** X10. After a merge that wrote the store, merging the same record again
    finds its key and writes nothing, provided [read_excel] returns the
    'Task Order #' column as it was written. *)
Theorem second_merge_finds_key (data : dict) (store : option DataFrame)
        (df' : DataFrame) (k : string) :
  dict_get "Task Order #" data = Some (Str k) ->
  update_excel pd data store = (Some df', [LogUpdated (Some (Str k))]) ->
  column "Task Order #" (read_excel pd df') = column "Task Order #" df' ->
  update_excel pd data (Some df')
  = (Some df', [LogAlreadyExists (Some (Str k))]).
Proof.
  intros Hk Hu Hread. unfold update_excel in Hu.
  set (df := match store with
             | Some written => read_excel pd written
             | None => empty_frame
             end) in Hu.
  destruct (merge pd data df) as [df''| |] eqn:Em; inversion Hu; subst.
  pose proof (merge_then_exists pd data df df' k Hk Em) as He.
  assert (Ht : truthy (dict_get "Task Order #" data) = true).
  { unfold merge in Em.
    destruct (truthy (dict_get "Task Order #" data)); [reflexivity|].
    discriminate. }
  unfold update_excel.
  rewrite (merge_exists_by_column data df' (read_excel pd df')
             (eq_sym Hread) Ht He).
  now rewrite Hk.
Qed.

End LoadedTables.

Lemma merge_keeps_store_ok_witness :
  store_ok one_row_store
  /\ fst (extract_pdf_data
            (Page (Some "Task Order Number: B2 Start Date: 03/01/24")))
     = Some second_record
  /\ merge pandas_mdY second_record one_row_store = Written two_row_store
  /\ store_ok two_row_store.
Proof.
  assert (H : store_ok one_row_store).
  { unfold store_ok, one_row_store. cbn [columns rows map].
    repeat split; repeat constructor; simpl; try tauto.
    exists "A1". split; [reflexivity | discriminate]. }
  split; [exact H|]. split; [reflexivity|]. split; [reflexivity|].
  exact (proj1 (merge_keeps_store_ok pandas_mdY
                  (Page (Some "Task Order Number: B2 Start Date: 03/01/24"))
                  second_record one_row_store two_row_store H
                  eq_refl eq_refl)).
Defined.

Lemma second_merge_finds_key_witness :
  dict_get "Task Order #" second_record = Some (Str "B2")
  /\ update_excel pandas_mdY second_record (Some one_row_store)
     = (Some two_row_store, [LogUpdated (Some (Str "B2"))])
  /\ column "Task Order #" (read_excel pandas_mdY two_row_store)
     = column "Task Order #" two_row_store
  /\ update_excel pandas_mdY second_record (Some two_row_store)
     = (Some two_row_store, [LogAlreadyExists (Some (Str "B2"))]).
Proof.
  split; [reflexivity|]. split; [reflexivity|]. split; [reflexivity|].
  exact (second_merge_finds_key pandas_mdY second_record
           (Some one_row_store) two_row_store "B2" eq_refl eq_refl eq_refl).
Defined.

(** C2, at inputs where the code fails it. [[\w-]+] admits keys that
    [read_excel] does not return as it finds them in the workbook: 'NA' comes
    back as a missing cell and '001' as the number 1.  The first merge
    stores the record; the second loads the workbook, [astype(str)] gives
    'nan' and '1', the key is not found, and the record is stored again:
    two rows for one task order, where one merge leaves one. *)
Theorem retyped_key_is_stored_twice :
  fst (extract_pdf_data
         (Page (Some "Task Order Number: NA Start Date: 03/01/24")))
  = Some na_record
  /\ fst (update_excel pandas_mdY na_record None)
     = Some (mkFrame store_columns
               [[Str "NA"; NaN; NaN; NaN; NaN; NaN;
                 Date 1709251200000000000; NaN]])
  /\ column "Task Order #"
       (read_excel pandas_mdY
          (mkFrame store_columns
             [[Str "NA"; NaN; NaN; NaN; NaN; NaN;
               Date 1709251200000000000; NaN]]))
     = Some [NaN]
  /\ fst (update_excel pandas_mdY na_record
            (fst (update_excel pandas_mdY na_record None)))
     = Some (mkFrame store_columns
               [[NaN; NaN; NaN; NaN; NaN; NaN;
                 Date 1709251200000000000; NaN];
                [Str "NA"; NaN; NaN; NaN; NaN; NaN;
                 Date 1709251200000000000; NaN]])
  /\ fst (update_excel pandas_mdY na_record
            (fst (update_excel pandas_mdY na_record None)))
     <> fst (update_excel pandas_mdY na_record None)
  /\ fst (run_batch pandas_mdY
            [Page (Some "Task Order Number: NA Start Date: 03/01/24");
             Page (Some "Task Order Number: NA Start Date: 03/01/24")] None)
     = fst (update_excel pandas_mdY na_record
              (fst (update_excel pandas_mdY na_record None)))
  /\ option_map (column "Task Order #")
       (fst (update_excel pandas_mdY zeros_record
               (fst (update_excel pandas_mdY zeros_record None))))
     = Some (Some [Num (inject_Z 1); Str "001"]).
Proof.
  repeat split; try reflexivity.
  intros H. vm_compute in H. discriminate H.
Qed.
